(** * Documentation-synchronisation core of [tasks/build.py]

    A shallow embedding of [tasks/build.py]: the part of [bin] that
    turns the help text printed by the compiled binary into an indented
    block and splices it into [README.md] (lines 61-114), the part of
    [docs_] that reads the [.docsignore] pattern file (lines 174-177)
    and the loop that resolves its patterns below the output directory
    and deletes what they yield (lines 184-194), and, around them, the
    compiler check, the flags handed to the tools and [bin] as a whole.

    Text is modelled as [string] (characters of code point below 256),
    with the semantics Python gives to text strings: [str.strip],
    [str.splitlines], [str.split], [str.replace], [str.join],
    [str.startswith], the [in] operator, [re.findall] for the one
    pattern the file uses, and [readlines] of a file opened in text
    mode.  The platform line separator [os.linesep] is the POSIX one. *)

From Stdlib Require Import List Ascii String Bool Arith ZArith Lia.
Import ListNotations.
Local Open Scope list_scope.
Local Open Scope string_scope.

(** ** Python string primitives *)

Module Py.

Definition LF : ascii := "010"%char.
Definition CR : ascii := "013"%char.

(** [c.isspace()] on the code points below 256. *)
Definition isspace (c : ascii) : bool :=
  match c with
  | "009" | "010" | "011" | "012" | "013"
  | "028" | "029" | "030" | "031" | " " | "133" | "160" => true
  | _ => false
  end%char.

(** The line boundaries of [str.splitlines] on the code points below 256. *)
Definition is_linebreak (c : ascii) : bool :=
  match c with
  | "010" | "011" | "012" | "013" | "028" | "029" | "030" | "133" => true
  | _ => false
  end%char.

(** [s.lstrip()] *)
Fixpoint lstrip (s : string) : string :=
  match s with
  | "" => ""
  | String c t => if isspace c then lstrip t else s
  end.

(** [s.rstrip()] *)
Fixpoint rstrip (s : string) : string :=
  match s with
  | "" => ""
  | String c t =>
      match rstrip t with
      | "" => if isspace c then "" else String c ""
      | r => String c r
      end
  end.

(** [s.strip()] *)
Definition strip (s : string) : string := rstrip (lstrip s).

(** [s.startswith(p)] *)
Definition startswith (p s : string) : bool := prefix p s.

(** [sub in s] *)
Fixpoint contains (sub s : string) : bool :=
  prefix sub s ||
  match s with
  | "" => false
  | String _ t => contains sub t
  end.

(** [sep.join(ls)] *)
Definition join (sep : string) (ls : list string) : string := concat sep ls.

(** Prepending a character to the first element of a list of pieces. *)
Definition cons_hd (c : ascii) (ls : list string) : list string :=
  match ls with
  | [] => [String c ""]
  | l :: ls' => String c l :: ls'
  end.

(** [s.splitlines()]: a line ends at a line boundary, ["\r\n"] is one
    boundary, and a final boundary opens no further line. *)
Fixpoint splitlines (s : string) : list string :=
  match s with
  | "" => []
  | String c t =>
      if is_linebreak c then
        "" :: match t with
              | String c' t' =>
                  if Ascii.eqb c CR && Ascii.eqb c' LF
                  then splitlines t' else splitlines t
              | "" => []
              end
      else cons_hd c (splitlines t)
  end.

(** [s.split(sep)] for a non-empty [sep]: the occurrences of [sep] are
    taken from the left and do not overlap; [skip] counts the characters
    of a found separator still to pass over. *)
Fixpoint split_from (sep : string) (skip : nat) (s : string) : list string :=
  match s with
  | "" => [""]
  | String c t =>
      match skip with
      | S k => split_from sep k t
      | O =>
          if prefix sep s
          then "" :: split_from sep (length sep - 1) t
          else cons_hd c (split_from sep 0 t)
      end
  end.

Definition split (sep s : string) : list string := split_from sep 0 s.

(** [s.replace(old, new)] for a non-empty [old]. *)
Fixpoint replace_from (old new : string) (skip : nat) (s : string) : string :=
  match s with
  | "" => ""
  | String c t =>
      match skip with
      | S k => replace_from old new k t
      | O =>
          if prefix old s
          then new ++ replace_from old new (length old - 1) t
          else String c (replace_from old new 0 t)
      end
  end.

Definition replace (old new s : string) : string := replace_from old new 0 s.

(** What a file opened in text mode hands to its reader: ["\r\n"] and a
    lone ["\r"] both arrive as ["\n"]. *)
Fixpoint universal_newlines (s : string) : string :=
  match s with
  | "" => ""
  | String c t =>
      if Ascii.eqb c CR then
        String LF match t with
                  | String c' t' =>
                      if Ascii.eqb c' LF then universal_newlines t'
                      else universal_newlines t
                  | "" => ""
                  end
      else String c (universal_newlines t)
  end.

(** Cutting a text after each ["\n"], the terminator kept with its line. *)
Fixpoint keepends (s : string) : list string :=
  match s with
  | "" => []
  | String c t =>
      if Ascii.eqb c LF then String c "" :: keepends t
      else cons_hd c (keepends t)
  end.

(** [f.readlines()] on a text-mode file whose content is [content]. *)
Definition readlines (content : string) : list string :=
  keepends (universal_newlines content).

End Py.

(** ** The regular expression of [bin] *)

Module Re.

(** [\w] of a pattern without flags. *)
Definition is_word (c : ascii) : bool :=
  let n := nat_of_ascii c in
  (((48 <=? n) && (n <=? 57)) || ((65 <=? n) && (n <=? 90))
   || ((97 <=? n) && (n <=? 122)) || (n =? 95))%nat.

(** [(?:\w|[-_])] *)
Definition flag_char (c : ascii) : bool :=
  is_word c || Ascii.eqb c "-"%char || Ascii.eqb c "_"%char.

Fixpoint take_while (p : ascii -> bool) (s : string) : string :=
  match s with
  | "" => ""
  | String c t => if p c then String c (take_while p t) else ""
  end.

(** The match of [--(?:\w|[-_])+] anchored at the start of [s], if any:
    the repetition is greedy and nothing follows it. *)
Definition match_flag (s : string) : option string :=
  match s with
  | String "-"%char (String "-"%char r) =>
      match take_while flag_char r with
      | "" => None
      | m => Some (String "-"%char (String "-"%char m))
      end
  | _ => None
  end.

(** [re.findall(r'--(?:\w|[-_])+', s)]: leftmost matches, each search
    resuming where the previous match ended. *)
Fixpoint findall_from (skip : nat) (s : string) : list string :=
  match s with
  | "" => []
  | String _ t =>
      match skip with
      | S k => findall_from k t
      | O =>
          match match_flag s with
          | Some m => m :: findall_from (length m - 1) t
          | None => findall_from 0 t
          end
      end
  end.

Definition findall_flags (s : string) : list string := findall_from 0 s.

End Re.

Import Py Re.

Definition nl : string := String LF "".

(** ** Errors *)

(** The one exception the modelled code can raise by itself: indexing an
    empty list. *)
Inductive exn : Type := IndexError.

Inductive result (A : Type) : Type :=
| Ok (a : A)
| Raise (e : exn).
Arguments Ok {A} a.
Arguments Raise {A} e.

Definition bind {A B : Type} (r : result A) (k : A -> result B) : result B :=
  match r with
  | Ok a => k a
  | Raise e => Raise e
  end.

Notation "x <- r ;; k" := (bind r (fun x => k))
  (at level 61, r at next level, right associativity).

(** [ls[0]] *)
Definition item0 (ls : list string) : result string :=
  match ls with
  | [] => Raise IndexError
  | l :: _ => Ok l
  end.

(** [del ls[0]] *)
Definition del0 (ls : list string) : result (list string) :=
  match ls with
  | [] => Raise IndexError
  | _ :: t => Ok t
  end.

(** ** [bin]: normalising the help text (lines 61-80) *)

Module Build.

Definition linesep : string := nl.

(** [binary.stdout.strip().splitlines()] *)
Definition help_lines (stdout : string) : list string :=
  splitlines (strip stdout).

(** [while not help_lines[0].startswith("USAGE"): del help_lines[0]];
    the condition reads [help_lines[0]] before each round. *)
Fixpoint drop_preamble (ls : list string) : result (list string) :=
  match ls with
  | [] => Raise IndexError
  | l :: t => if startswith "USAGE" l then Ok ls else drop_preamble t
  end.

(** The condition of the comprehension of lines 68-72. *)
Definition keep_line (flags : list string) (line : string) : bool :=
  negb (contains "--" line) || existsb (fun flag => contains flag line) flags.

(** [']\n    '.join(s.strip().split('] ')).replace("rush", "rh").splitlines()] *)
Definition usage_lines (s : string) : list string :=
  splitlines
    (replace "rush" "rh"
       (join ("]" ++ nl ++ "    ") (split "] " (strip s)))).

Definition indent (line : string) : string := "    " ++ line.

(** Lines 61-80: from the captured standard output to [help]. *)
Definition bin_help (stdout : string) : result string :=
  ls <- drop_preamble (help_lines stdout) ;;
  ls <- del0 ls ;;
  usage <- item0 ls ;;
  let flags := findall_flags usage in
  let ls := usage :: filter (keep_line flags) (tl ls) in
  let ls := (usage_lines usage ++ tl ls)%list in
  Ok (join linesep (map indent ls)).

(** ** [bin]: splicing into the README (lines 84-114) *)

(** [[line.rstrip() for line in f.readlines()]] *)
Definition readme_lines (content : string) : list string :=
  map rstrip (readlines content).

(** The test of line 91. *)
Definition is_header (line : string) : bool := startswith "#" line.

(** The loop of lines 90-98 from index [i] on, [begin_idx] being what the
    rounds before have set; the result is [(begin_idx, end_idx)]. *)
Fixpoint find_markers (i : nat) (begin_idx : option nat) (ls : list string)
  : option nat * option nat :=
  match ls with
  | [] => (begin_idx, None)
  | line :: t =>
      if negb (is_header line) then find_markers (S i) begin_idx t
      else
        match begin_idx with
        | None =>
            if contains "# Usage" line
            then find_markers (S i) (Some i) t
            else find_markers (S i) None t
        | Some _ => (begin_idx, Some i)
        end
  end.

(** Lines 84-114 on a README of content [content]: the value returned
    ([None] when the function runs to its end) and the content of the
    file afterwards. *)
Definition bin_readme (help content : string) : option Z * string :=
  let readme_lines := readme_lines content in
  match find_markers 0 None readme_lines with
  | (Some begin_idx, Some end_idx) =>
      let readme_content :=
        join linesep
          [ join linesep (firstn (begin_idx + 1) readme_lines);
            ""; help; "";
            join linesep (skipn end_idx readme_lines);
            "" ] in
      (None, readme_content)
  | _ => (Some 2%Z, content)
  end.

(** Lines 61-114: an exception raised while the help is normalised leaves
    [bin] before the README is opened. *)
Definition bin (stdout readme : string) : result (option Z * string) :=
  help <- bin_help stdout ;;
  Ok (bin_readme help readme).

(** ** [docs_]: reading the pattern file (lines 174-177) *)

Definition ignored_line (line : string) : bool :=
  negb (String.eqb (strip line) "") && negb (startswith "#" (lstrip line)).

Definition docs_ignored (content : string) : list string :=
  map rstrip (filter ignored_line (readlines content)).

End Build.

Import Build.

(** The text whose lines are [ls], each closed by the line separator. *)
Definition unlines (ls : list string) : string :=
  List.fold_right (fun l r => l ++ nl ++ r) "" ls.

(** ** Vocabulary of the statements *)

(** [sub] occurs in [s]. *)
Definition Substring (sub s : string) : Prop :=
  exists pre post, s = pre ++ sub ++ post.

(** The index of the first element of [ls] that satisfies [p]. *)
Fixpoint find_first {A : Type} (p : A -> bool) (ls : list A) : option nat :=
  match ls with
  | [] => None
  | x :: t => if p x then Some 0 else option_map S (find_first p t)
  end.

(** [k] is the least index of [ls] at which [p] holds. *)
Definition first_at {A : Type} (p : A -> bool) (ls : list A) (k : nat) : Prop :=
  (exists x, nth_error ls k = Some x /\ p x = true) /\
  (forall j y, j < k -> nth_error ls j = Some y -> p y = false).

(** A header line that carries the title of the usage section (lines 91
    and 94). *)
Definition is_usage_header (line : string) : bool :=
  is_header line && contains "# Usage" line.

(** The number of header lines of a document. *)
Definition count_headers (ls : list string) : nat :=
  List.length (filter is_header ls).

(** The header test in the words of the specification: the first
    character of the line that is not a space is the header marker. *)
Fixpoint first_nonspace (s : string) : option ascii :=
  match s with
  | "" => None
  | String c t => if Ascii.eqb c " " then first_nonspace t else Some c
  end.

Definition spec_is_header (line : string) : bool :=
  match first_nonspace line with
  | Some c => Ascii.eqb c "#"
  | None => false
  end.

(** [e] is the least index of [ls] above [b] at which [p] holds. *)
Definition next_at {A : Type} (p : A -> bool) (ls : list A) (b e : nat) : Prop :=
  b < e /\
  (exists x, nth_error ls e = Some x /\ p x = true) /\
  (forall j y, b < j < e -> nth_error ls j = Some y -> p y = false).

(** Every character of [s] satisfies [p]. *)
Fixpoint all_chars (p : ascii -> bool) (s : string) : bool :=
  match s with
  | "" => true
  | String c t => p c && all_chars p t
  end.

(** [s] is not empty and its last character is not whitespace. *)
Fixpoint ends_black (s : string) : bool :=
  match s with
  | "" => false
  | String c t =>
      match t with
      | "" => negb (isspace c)
      | _ => ends_black t
      end
  end.

Definition no_linebreak (line : string) : bool :=
  all_chars (fun c => negb (is_linebreak c)) line.

Definition not_lf (c : ascii) : bool := negb (Ascii.eqb c LF).
Definition not_cr (c : ascii) : bool := negb (Ascii.eqb c CR).

(** [line] holds neither a line feed nor a carriage return. *)
Definition no_eol (line : string) : bool :=
  all_chars not_lf line && all_chars not_cr line.

(** The lines a document consists of once the splice has read it: free
    of line ends and of trailing whitespace. *)
Definition tidy (line : string) : Prop :=
  no_eol line = true /\ rstrip line = line.

(** [line] followed by the line separator. *)
Definition eol (line : string) : string := line ++ nl.

(** The document holds the help block between the markers: its lines are
    the lines [P], whose last one is the begin marker, then an empty
    line, the block and an empty line, then the lines [S], whose first
    one is the end marker. *)
Definition holds_block (help content : string) : Prop :=
  exists P S,
    readlines content = (P ++ readlines (unlines [""; help; ""]) ++ S)%list /\
    find_markers 0 None (readme_lines content) =
      (Some (List.length P - 1),
       Some (List.length P + List.length (readlines (unlines [""; help; ""])))).

(** The preamble property in the words of the specification, for a help
    text whose lines are a non-empty preamble [pre], a line [u] that
    starts with [USAGE], and the lines [after]: normalisation gives an
    output whose first line is the indented first line of the reformatted
    synopsis, the synopsis being the line after [u], and no line of
    [pre] is a line of the output. *)
Definition preamble_claim (stdout : string) : Prop :=
  forall pre u after,
    help_lines stdout = (pre ++ u :: after)%list ->
    pre <> [] ->
    (forall l, In l pre -> startswith "USAGE" l = false) ->
    startswith "USAGE" u = true ->
    exists out,
      bin_help stdout = Ok out /\
      (exists synopsis first,
         hd_error after = Some synopsis /\
         hd_error (usage_lines synopsis) = Some first /\
         hd_error (split nl out) = Some (indent first)) /\
      (forall l, In l pre -> ~ In l (split nl out)).

(** ** The rest of [tasks/build.py] *)

Module PyExt.

Fixpoint drop_while (p : ascii -> bool) (s : string) : string :=
  match s with
  | "" => ""
  | String c t => if p c then drop_while p t else s
  end.

Definition nonspace (c : ascii) : bool := negb (isspace c).

(** [s.split(None, maxsplit)]: words are cut at runs of whitespace; once
    [maxsplit] cuts are made, what is left, without its leading
    whitespace, is the last element if it is not empty. *)
Fixpoint split_ws (maxsplit : nat) (s : string) : list string :=
  match lstrip s with
  | "" => []
  | String c t =>
      match maxsplit with
      | O => [String c t]
      | S n =>
          take_while nonspace (String c t)
          :: split_ws n (drop_while nonspace (String c t))
      end
  end.

Definition dquote : ascii := "034"%char.

(** The characters [quote] leaves alone: [\w] and [@%+=:,./-]. *)
Definition is_safe (c : ascii) : bool :=
  is_word c ||
  existsb (Ascii.eqb c) ["@"; "%"; "+"; "="; ":"; ","; "."; "/"; "-"]%char.

(** [quote(s)] of [shlex] (of [pipes] where [shlex] has none). *)
Definition quote (s : string) : string :=
  if String.eqb s "" then "''"
  else if all_chars is_safe s then s
  else "'" ++ replace "'" ("'" ++ String dquote ("'" ++ String dquote "'")) s
       ++ "'".

End PyExt.

Module Tasks.

Import PyExt.

(** What the code reads of the result of a command it has run. *)
Record Result : Type :=
  { ok : bool; return_code : Z; stdout : string; stderr : string }.

(** How a call can end other than by returning. *)
Inductive abort : Type :=
| SystemExit (code : Z)
| ValueError
| Uncaught (e : exn)
| FileError.

Inductive outcome (A : Type) : Type :=
| Returns (a : A)
| Aborts (s : abort).
Arguments Returns {A} a.
Arguments Aborts {A} s.

Definition MIN_RUSTC_VERSION : string := "1.10.0".

(** [get_rustc_flags] (lines 215-222) *)
Definition get_rustc_flags (release verbose : bool) : list string :=
  let flags := [] in
  let flags := if release then (flags ++ ["--release"])%list else flags in
  let flags := if verbose then (flags ++ ["--verbose"])%list else flags in
  flags.

(** The argument list and the command of [docs_] (lines 147-152). *)
Definition mkdocs_args (release verbose : bool) : list string :=
  let args := ["--strict"] in
  let args := if release then (args ++ ["--clean"])%list else args in
  let args := if verbose then (args ++ ["--verbose"])%list else args in
  args.

Definition mkdocs_command (release verbose : bool) : string :=
  "mkdocs build " ++ join " " (map quote (mkdocs_args release verbose)).

Section Rustc.

(** [semver.match(version, match_expr)], a library of its own: [None]
    when it raises [ValueError] at a version or an expression it cannot
    parse. *)
Variable semver_match : string -> string -> option bool.

(** [ensure_rustc_version] (lines 199-212) on the result [rustc_v] of
    [rustc --version]; the unpacking of line 206 wants three values. *)
Definition ensure_rustc_version (rustc_v : Result) : outcome bool :=
  if negb (ok rustc_v) then Aborts (SystemExit (return_code rustc_v))
  else
    match split_ws 2 (stdout rustc_v) with
    | [_; version; _] =>
        match semver_match version (">=" ++ MIN_RUSTC_VERSION) with
        | None => Aborts ValueError
        | Some false => Aborts (SystemExit 1%Z)
        | Some true => Returns true
        end
    | _ => Aborts ValueError
    end.

(** [bin] as a whole (lines 44-114), on the results of [rustc --version],
    of the build and of the run of the binary, and on the README:
    [readme] is the text it holds, [None] when opening or decoding it
    raises (lines 84-85), and [write_ok] tells whether the writing of
    lines 112-114 goes through; [FileError] stands for the error raised
    otherwise.  The result is the value returned and the README
    afterwards. *)
Definition bin_task (rustc_v cargo_build binary : Result)
           (readme : option string) (write_ok : bool)
  : outcome (option Z * option string) :=
  match ensure_rustc_version rustc_v with
  | Aborts s => Aborts s
  | Returns _ =>
      if negb (ok cargo_build) then
        Returns (Some (return_code cargo_build), readme)
      else if negb (ok binary) then
        Returns (Some (return_code binary), readme)
      else
        match Build.bin_help (stdout binary) with
        | Raise e => Aborts (Uncaught e)
        | Ok help =>
            match readme with
            | None => Aborts FileError
            | Some content =>
                match Build.bin_readme help content with
                | (Some code, _) => Returns (Some code, Some content)
                | (None, readme_content) =>
                    if write_ok then Returns (None, Some readme_content)
                    else Aborts FileError
                end
            end
        end
  end.

(** [lib] (lines 118-123) *)
Definition lib_task (rustc_v cargo_build : Result) : outcome Z :=
  match ensure_rustc_version rustc_v with
  | Aborts s => Aborts s
  | Returns _ => Returns (return_code cargo_build)
  end.

End Rustc.

End Tasks.

(** The version test of the sample runs: the version must be the
    minimum itself. *)
Definition exact_match (version expr : string) : option bool :=
  Some (String.eqb (">=" ++ version) expr).

(** A document with the line ends of another platform: every line is
    closed by a carriage return and a line feed. *)
Definition crlf_lines (ls : list string) : string :=
  List.fold_right (fun l r => l ++ String CR nl ++ r) "" ls.

(** A character other than the first of [rush]. *)
Definition not_r (c : ascii) : bool := negb (Ascii.eqb c "r").

(** A run of whitespace, and a word: a non-empty run of other
    characters. *)
Definition is_blank (s : string) : bool := all_chars isspace s.

Definition is_word_run (s : string) : bool :=
  negb (String.eqb s "") && all_chars PyExt.nonspace s.

(** The result of a command that succeeded and printed [out]. *)
Definition succeeded (out : string) : Tasks.Result :=
  {| Tasks.ok := true; Tasks.return_code := 0%Z;
     Tasks.stdout := out; Tasks.stderr := "" |}.

(** The result of a command that failed with [code]. *)
Definition failed (code : Z) : Tasks.Result :=
  {| Tasks.ok := false; Tasks.return_code := code;
     Tasks.stdout := ""; Tasks.stderr := "" |}.

(** ** [docs_]: resolving and deleting the ignored paths (lines 184-194) *)

Module Purge.

(** What lies below the output directory: every entry with its path, the
    names from the output directory down, and whether it is a
    directory.  The output directory itself is the empty path. *)
Definition path : Type := list string.
Definition tree : Type := list (path * bool).

Fixpoint path_eqb (p q : path) : bool :=
  match p, q with
  | [], [] => true
  | x :: p', y :: q' => String.eqb x y && path_eqb p' q'
  | _, _ => false
  end.

Fixpoint is_prefix (p q : path) : bool :=
  match p, q with
  | [], _ => true
  | x :: p', y :: q' => String.eqb x y && is_prefix p' q'
  | _, _ => false
  end.

(** [p.exists()] and [p.is_dir()] *)
Definition exists_ (t : tree) (p : path) : bool :=
  match p with
  | [] => true
  | _ => existsb (fun e => path_eqb p (fst e)) t
  end.

Definition is_dir (t : tree) (p : path) : bool :=
  match p with
  | [] => true
  | _ => existsb (fun e => path_eqb p (fst e) && snd e) t
  end.

(** The name of [p] if [p] lies directly below [parent]. *)
Fixpoint child_name (parent p : path) : option string :=
  match parent, p with
  | [], [name] => Some name
  | x :: parent', y :: p' =>
      if String.eqb x y then child_name parent' p' else None
  | _, _ => None
  end.

(** [listdir(parent)]: the names directly below [parent], each once. *)
Definition listdir (t : tree) (parent : path) : list string :=
  nodup string_dec
    (flat_map (fun e => match child_name parent (fst e) with
                        | Some name => [name]
                        | None => []
                        end) t).

(** [fnmatch] of a name against a pattern made of [*], [?] and
    characters that stand for themselves. *)
Fixpoint wild_match (pat name : string) : bool :=
  match pat with
  | "" => match name with "" => true | _ => false end
  | String c pat' =>
      if Ascii.eqb c "*" then
        (fix star (name : string) : bool :=
           wild_match pat' name ||
           match name with
           | "" => false
           | String _ name' => star name'
           end) name
      else
        match name with
        | "" => false
        | String d name' =>
            (Ascii.eqb c "?" || Ascii.eqb c d) && wild_match pat' name'
        end
  end.

(** The parts of a relative pattern: cut at [/], empty parts and [.]
    left out. *)
Definition pattern_parts (pattern : string) : list string :=
  filter (fun x => negb (String.eqb x "") && negb (String.eqb x "."))
         (split "/" pattern).

Definition is_wildcard (pat : string) : bool :=
  contains "*" pat || contains "?" pat.

(** The parts this model resolves: none that holds [**], whose walk
    through the tree goes on while the loop deletes, no [..], which
    leaves the tree, and no bracket expression. *)
Definition plain_part (pat : string) : bool :=
  negb (contains "**" pat) && negb (String.eqb pat "..") &&
  negb (contains "[" pat).


(** The selectors of [Path.glob] for plain parts, from the directory
    [parent]: a part with a wildcard is matched against the names in
    [parent], a part without one names a single entry, and when no part
    is left the path reached is yielded. *)
Fixpoint select (parts : list string) (parent : path) (t : tree)
  : list path :=
  match parts with
  | [] => [parent]
  | pat :: child_parts =>
      if negb (is_dir t parent) then []
      else if is_wildcard pat then
        flat_map (fun name =>
                    if wild_match pat name
                    then select child_parts (parent ++ [name])%list t
                    else [])
                 (listdir t parent)
      else if exists_ t (parent ++ [pat])%list
           then select child_parts (parent ++ [pat])%list t
           else []
  end.

(** The body of the loop (lines 191-194): [shutil.rmtree] removes a
    directory and all below it, [unlink] one file, and raises when there
    is none ([None]). *)
Definition delete (t : tree) (p : path) : option tree :=
  if is_dir t p then Some (filter (fun e => negb (is_prefix p (fst e))) t)
  else if exists_ t p
       then Some (filter (fun e => negb (path_eqb p (fst e))) t)
       else None.

Definition delete_next (acc : option tree) (p : path) : option tree :=
  match acc with
  | Some t => delete t p
  | None => None
  end.

Section Globbing.

(** What the loop does for a pattern with a part that is not plain. *)
Variable beyond : list string -> tree -> option tree.

(** The loop over the matches of one pattern.  A pattern that starts
    with [/] or has no part makes [glob] raise. *)
Definition purge_pattern (t : tree) (pattern : string) : option tree :=
  if startswith "/" pattern then None
  else
    match pattern_parts pattern with
    | [] => None
    | parts =>
        if forallb plain_part parts
        then fold_left delete_next (select parts [] t) (Some t)
        else beyond parts t
    end.

Definition purge_next (acc : option tree) (pattern : string) : option tree :=
  match acc with
  | Some t => purge_pattern t pattern
  | None => None
  end.

(** Lines 184-194: the patterns are resolved one after the other, each
    when the loop reaches it. *)
Definition purge (t : tree) (ignored : list string) : option tree :=
  fold_left purge_next ignored (Some t).

(** Lines 167-194: the release part of [docs_], on the content of the
    pattern file, [None] when there is no such file. *)
Definition docs_release (release : bool) (ignore_file : option string)
           (t : tree) : option tree :=
  if release then
    let ignored := match ignore_file with
                   | Some content => Build.docs_ignored content
                   | None => []
                   end in
    purge t ignored
  else Some t.

End Globbing.

End Purge.




(** A loop that stops at a pattern with a part that is not plain. *)
Definition no_beyond (parts : list string) (t : Purge.tree)
  : option Purge.tree := None.

(** The lines [b] through the begin marker and from the end marker on
    come out as the file has them. *)
Definition verbatim_claim (help content : string) : Prop :=
  forall b e,
    find_markers 0 None (readme_lines content) = (Some b, Some e) ->
    exists new mid,
      bin_readme help content = (None, new) /\
      readlines new =
        (firstn (b + 1) (readlines content) ++ mid ++
         skipn e (readlines content))%list.

(** Normalisation fails whenever no line of the text as printed starts
    with [USAGE]. *)
Definition raw_usage_claim : Prop :=
  forall stdout,
    (forall l, In l (splitlines stdout) -> startswith "USAGE" l = false) ->
    bin_help stdout = Raise IndexError.

(** ** Sample inputs *)

Definition sample_help : string :=
  unlines
    [ "rush 0.1.0";
      "Succinct & readable processing language";
      "";
      "USAGE:";
      "    rush [OPTIONS] [--before <EXPR>] [--pretty] <EXPRESSION>...";
      "";
      "OPTIONS:";
      "    -i, --input <MODE>     Defines how the input is treated";
      "        --before <EXPR>    Expression to evaluate before";
      "    -p, --pretty           Pretty output";
      "" ].

Definition sample_readme : string :=
  unlines [ "# rush"; ""; "Intro  "; ""; "## Usage"; ""; "old text"; "";
            "## More"; "tail" ].


Definition usage_stdout : string := unlines ["USAGE:"; "    rush"].

Definition trailing_readme : string :=
  unlines ["## Usage"; ""; "    rh"; ""; "## More  "].

Definition no_synopsis_help : string := unlines ["About app"; "USAGE:"].

Definition echo_help : string :=
  unlines ["About app"; "    note"; "USAGE:"; "    rush"; "note"].

Definition blank_synopsis_help : string :=
  unlines ["About app"; "USAGE:"; ""; "    rush [--all]";
           "    --all  everything"].

Definition indented_usage_help : string :=
  "  USAGE:" ++ nl ++ "    app [--a]" ++ nl ++ "    --a  one".

Definition site_tree : Purge.tree :=
  [ (["a.tmp"], false); (["keep.txt"], false); (["build"], true);
    (["build"; "x.html"], false) ].


(** ** The primitives and the routines on sample inputs *)

Example splitlines_ex :
  splitlines ("a" ++ nl ++ nl ++ "b c " ++ String CR nl ++ "d" ++ nl)
  = ["a"; ""; "b c "; "d"].
Proof. reflexivity. Qed.

Example split_ex : split "] " "x [a] [b] c] " = ["x [a"; "[b"; "c"; ""].
Proof. reflexivity. Qed.

Example replace_ex : replace "rush" "rh" "rush crushrush" = "rh crhrh".
Proof. reflexivity. Qed.

Example findall_ex :
  findall_flags "rush [--in <F>] [---a-b_c] [-- x] --9" =
  ["--in"; "---a-b_c"; "--9"].
Proof. reflexivity. Qed.

Example strip_ex : strip ("  a b " ++ nl) = "a b".
Proof. reflexivity. Qed.

Example readlines_ex :
  readlines ("a " ++ String CR nl ++ "b" ++ String CR "c") =
  ["a " ++ nl; "b" ++ nl; "c"].
Proof. reflexivity. Qed.

Example bin_help_ex :
  bin_help sample_help =
  Ok (join nl
        [ "    rh [OPTIONS]";
          "        [--before <EXPR>]";
          "        [--pretty]";
          "        <EXPRESSION>...";
          "    ";
          "    OPTIONS:";
          "            --before <EXPR>    Expression to evaluate before";
          "        -p, --pretty           Pretty output" ]).
Proof. reflexivity. Qed.

Example bin_readme_ex :
  bin_readme "    rh" sample_readme =
  (None,
   unlines [ "# rush"; ""; "Intro"; ""; "## Usage"; ""; "    rh"; "";
             "## More"; "tail" ]).
Proof. reflexivity. Qed.

Example docs_ignored_ex :
  docs_ignored (unlines ["# comment"; ""; "*.log"]) = ["*.log"].
Proof. reflexivity. Qed.

(** ** Facts about the string primitives *)

Lemma append_nil_r (s : string) : s ++ "" = s.
Proof. induction s as [|c s IH]; simpl; [reflexivity | now rewrite IH]. Qed.

Lemma append_assoc (a b c : string) : (a ++ b) ++ c = a ++ b ++ c.
Proof. induction a as [|x a IH]; simpl; [reflexivity | now rewrite IH]. Qed.

Lemma prefix_nil (s : string) : prefix "" s = true.
Proof. destruct s; reflexivity. Qed.

Lemma prefix_cons (a b : ascii) (p s : string) :
  prefix (String a p) (String b s) = Ascii.eqb a b && prefix p s.
Proof.
  simpl. destruct (ascii_dec a b) as [->|Hne].
  - now rewrite Ascii.eqb_refl.
  - apply Ascii.eqb_neq in Hne. now rewrite Hne.
Qed.

Lemma prefix_app (p s : string) : prefix p (p ++ s) = true.
Proof.
  induction p as [|a p IH]; [apply prefix_nil|].
  change (String a p ++ s) with (String a (p ++ s)).
  now rewrite prefix_cons, Ascii.eqb_refl, IH.
Qed.

Lemma prefix_inv (p s : string) :
  prefix p s = true -> exists t, s = p ++ t.
Proof.
  revert s. induction p as [|a p IH]; intros s H.
  - now exists s.
  - destruct s as [|b s]; [discriminate|].
    rewrite prefix_cons in H. apply andb_true_iff in H as [Hab Hp].
    apply Ascii.eqb_eq in Hab as ->.
    destruct (IH _ Hp) as [t ->]. now exists t.
Qed.

Lemma contains_nil (sub : string) : contains sub "" = prefix sub "".
Proof. simpl. apply orb_false_r. Qed.

Lemma contains_cons (sub : string) (c : ascii) (s : string) :
  contains sub (String c s) = prefix sub (String c s) || contains sub s.
Proof. reflexivity. Qed.

Lemma contains_spec (sub s : string) :
  contains sub s = true <-> Substring sub s.
Proof.
  split.
  - induction s as [|c s IH]; intros H.
    + rewrite contains_nil in H. apply prefix_inv in H as [t Ht].
      exists "", t. exact Ht.
    + rewrite contains_cons in H. apply orb_true_iff in H as [H|H].
      * apply prefix_inv in H as [t Ht]. exists "", t. exact Ht.
      * destruct (IH H) as (pre & post & ->).
        now exists (String c pre), post.
  - intros (pre & post & ->). induction pre as [|c pre IH].
    + change ("" ++ sub ++ post) with (sub ++ post).
      destruct (sub ++ post) as [|c r] eqn:E.
      * rewrite contains_nil, <- E. apply prefix_app.
      * rewrite contains_cons, <- E, prefix_app. reflexivity.
    + change (String c pre ++ sub ++ post)
        with (String c (pre ++ sub ++ post)).
      rewrite contains_cons, IH. apply orb_true_r.
Qed.

Lemma contains_false (sub s : string) :
  contains sub s = false <-> ~ Substring sub s.
Proof.
  rewrite <- contains_spec. destruct (contains sub s); split; intros H;
    try reflexivity; try discriminate; try (intros K; discriminate).
  now elim H.
Qed.

(** ** Normalisation stops at a help text without usage header *)

Lemma drop_preamble_none (ls : list string) :
  (forall l, In l ls -> startswith "USAGE" l = false) ->
  drop_preamble ls = Raise IndexError.
Proof.
  induction ls as [|l t IH]; intros H; [reflexivity|].
  simpl. rewrite (H l (or_introl eq_refl)).
  apply IH. intros x Hx. apply H. now right.
Qed.

Lemma drop_preamble_ok (ls r : list string) :
  drop_preamble ls = Ok r ->
  exists pre u rest,
    ls = (pre ++ u :: rest)%list /\ r = u :: rest /\
    startswith "USAGE" u = true /\
    (forall l, In l pre -> startswith "USAGE" l = false).
Proof.
  revert r. induction ls as [|l t IH]; intros r H; [discriminate|].
  simpl in H. destruct (startswith "USAGE" l) eqn:E.
  - injection H as <-. exists [], l, t. repeat split; auto.
    intros x [].
  - destruct (IH _ H) as (pre & u & rest & -> & -> & Hu & Hpre).
    exists (l :: pre), u, rest. repeat split; auto.
    intros x [<-|Hx]; auto.
Qed.

(** C10, as the code has it: when no line of the trimmed text
    ([help_lines], the [strip] and [splitlines] of line 61) starts with
    [USAGE], the loop that strips the preamble runs through the whole
    list and its next read of [help_lines[0]] raises [IndexError]; [bin]
    does not return and a result therefore requires such a line. *)
Theorem bin_help_without_usage (stdout : string) :
  (forall l, In l (help_lines stdout) -> startswith "USAGE" l = false) ->
  drop_preamble (help_lines stdout) = Raise IndexError /\
  bin_help stdout = Raise IndexError /\
  (forall readme, bin stdout readme = Raise IndexError).
Proof.
  intros H. pose proof (drop_preamble_none _ H) as E.
  split; [exact E|].
  assert (bin_help stdout = Raise IndexError) as E'
      by (unfold bin_help; now rewrite E).
  split; [exact E'|]. intros readme. unfold bin. now rewrite E'.
Qed.

Lemma bin_help_without_usage_witness :
  bin_help ("rush 0.1.0" ++ nl ++ "no synopsis here") = Raise IndexError.
Proof.
  apply (bin_help_without_usage ("rush 0.1.0" ++ nl ++ "no synopsis here")).
  intros l H. vm_compute in H.
  destruct H as [<-|[<-|[]]]; reflexivity.
Defined.

Lemma bin_help_ok_has_usage (stdout help : string) :
  bin_help stdout = Ok help ->
  exists l, In l (help_lines stdout) /\ startswith "USAGE" l = true.
Proof.
  unfold bin_help. intros H.
  destruct (drop_preamble (help_lines stdout)) as [r|e] eqn:E;
    [|discriminate].
  destruct (drop_preamble_ok _ _ E) as (pre & u & rest & Hl & _ & Hu & _).
  exists u. split; [|exact Hu]. rewrite Hl. apply in_or_app. right. now left.
Qed.

(** ** The marker scan *)

Lemma find_first_none {A : Type} (p : A -> bool) (ls : list A) :
  find_first p ls = None <-> (forall x, In x ls -> p x = false).
Proof.
  induction ls as [|x t IH]; simpl.
  - split; [intros _ y []|reflexivity].
  - destruct (p x) eqn:E.
    + split; [discriminate|]. intros H.
      rewrite (H x (or_introl eq_refl)) in E. discriminate.
    + destruct (find_first p t) as [k|] eqn:F; simpl.
      * split; [discriminate|]. intros H.
        assert (Some k = None) as K by (apply IH; intros y Hy; apply H; now right).
        discriminate.
      * split; [|reflexivity]. intros _ y [<-|Hy]; [exact E|].
        now apply (proj1 IH).
Qed.

Lemma find_first_spec {A : Type} (p : A -> bool) (ls : list A) (k : nat) :
  find_first p ls = Some k <-> first_at p ls k.
Proof.
  revert k. induction ls as [|x t IH]; intros k; simpl.
  - split; [discriminate|]. intros [(y & Hy & _) _].
    destruct k; discriminate.
  - destruct (p x) eqn:E.
    + split.
      * intros [= <-]. split; [now exists x|]. intros j y Hj. lia.
      * intros [(y & Hy & Hp) Hmin]. destruct k as [|k]; [reflexivity|].
        rewrite (Hmin 0 x) in E; [discriminate|lia|reflexivity].
    + split.
      * destruct (find_first p t) as [k'|] eqn:F; [|discriminate].
        intros [= <-]. destruct (proj1 (IH k') eq_refl) as [Hk Hmin].
        split; [exact Hk|]. intros [|j] y Hj Hy.
        -- injection Hy as <-. exact E.
        -- apply (Hmin j); [lia|exact Hy].
      * intros [(y & Hy & Hp) Hmin]. destruct k as [|k].
        -- injection Hy as <-. rewrite Hp in E. discriminate.
        -- assert (find_first p t = Some k) as ->; [|reflexivity].
           apply IH. split; [now exists y|].
           intros j z Hj Hz. apply (Hmin (S j)); [lia|exact Hz].
Qed.

Lemma find_markers_some (i b : nat) (ls : list string) :
  find_markers i (Some b) ls =
  (Some b, option_map (fun k => i + k) (find_first is_header ls)).
Proof.
  revert i. induction ls as [|l t IH]; intros i; [reflexivity|].
  simpl. destruct (is_header l); simpl.
  - now rewrite Nat.add_0_r.
  - rewrite IH. destruct (find_first is_header t); simpl; [|reflexivity].
    do 2 f_equal. lia.
Qed.

Lemma find_markers_none (i : nat) (ls : list string) :
  find_markers i None ls =
  match find_first is_usage_header ls with
  | None => (None, None)
  | Some k =>
      (Some (i + k),
       option_map (fun j => i + k + 1 + j)
         (find_first is_header (skipn (k + 1) ls)))
  end.
Proof.
  revert i. induction ls as [|l t IH]; intros i; [reflexivity|].
  simpl. unfold is_usage_header at 1.
  destruct (is_header l); simpl.
  - destruct (contains "# Usage" l); simpl.
    + rewrite find_markers_some, Nat.add_0_r.
      destruct (find_first is_header t); simpl; [|reflexivity].
      do 2 f_equal. lia.
    + rewrite IH. destruct (find_first is_usage_header t) as [k|]; simpl;
        [|reflexivity].
      replace (i + S k) with (S i + k) by lia. reflexivity.
  - rewrite IH. destruct (find_first is_usage_header t) as [k|]; simpl;
      [|reflexivity].
    replace (i + S k) with (S i + k) by lia. reflexivity.
Qed.

Lemma find_first_count_zero (ls : list string) :
  count_headers ls = 0 -> find_first is_header ls = None.
Proof.
  unfold count_headers. induction ls as [|l t IH]; simpl; [reflexivity|].
  destruct (is_header l); simpl; [discriminate|].
  intros H. now rewrite IH.
Qed.

Lemma one_header_no_end (ls : list string) :
  count_headers ls <= 1 -> snd (find_markers 0 None ls) = None.
Proof.
  intros H. rewrite find_markers_none.
  destruct (find_first is_usage_header ls) as [k|] eqn:F; [|reflexivity].
  simpl. apply find_first_spec in F as [(x & Hx & Hp) _].
  assert (count_headers (skipn (k + 1) ls) = 0) as Z.
  { revert k x Hx Hp H. unfold count_headers.
    induction ls as [|l t IH]; intros k x Hx Hp H.
    - now rewrite skipn_nil.
    - destruct k as [|k]; simpl in *.
      + injection Hx as ->. unfold is_usage_header in Hp.
        apply andb_true_iff in Hp as [Hp _]. rewrite Hp in H.
        simpl in H. lia.
      + apply (IH k x Hx Hp). destruct (is_header l); simpl in H; lia. }
  now rewrite (find_first_count_zero _ Z).
Qed.

(** C1: when the scan leaves [begin_idx] or [end_idx] unset (as it does
    on every document with at most one header line), the splice returns
    2 and the content of the file is what it was: nothing is written. *)
Theorem bin_readme_markers_missing (help content : string) :
  fst (find_markers 0 None (readme_lines content)) = None \/
  snd (find_markers 0 None (readme_lines content)) = None \/
  count_headers (readme_lines content) <= 1 ->
  bin_readme help content = (Some 2%Z, content).
Proof.
  intros H.
  assert (fst (find_markers 0 None (readme_lines content)) = None \/
          snd (find_markers 0 None (readme_lines content)) = None) as H'.
  { destruct H as [H|[H|H]]; auto. right. now apply one_header_no_end. }
  unfold bin_readme.
  destruct (find_markers 0 None (readme_lines content)) as [[b|] [e|]];
    simpl in H'; try reflexivity.
  destruct H' as [H'|H']; discriminate.
Qed.

Lemma bin_readme_markers_missing_witness :
  count_headers (readme_lines (unlines ["intro"; "## Usage"; "body"])) <= 1 /\
  bin_readme "    rh" (unlines ["intro"; "## Usage"; "body"]) =
  (Some 2%Z, unlines ["intro"; "## Usage"; "body"]).
Proof.
  split; [vm_compute; lia|].
  apply (bin_readme_markers_missing "    rh"
           (unlines ["intro"; "## Usage"; "body"])).
  right. right. vm_compute. lia.
Defined.

Lemma is_header_spec (line : string) :
  is_header line = true <-> exists t, line = String "#" t.
Proof.
  unfold is_header, startswith. split.
  - intros H. apply prefix_inv in H as [t ->]. now exists t.
  - intros [t ->]. now rewrite prefix_cons, prefix_nil.
Qed.

Lemma first_at_skipn {A : Type} (p : A -> bool) (ls : list A) (b j : nat) :
  first_at p (skipn (b + 1) ls) j <-> next_at p ls b (b + 1 + j).
Proof.
  unfold first_at, next_at. split.
  - intros [(x & Hx & Hp) Hmin]. rewrite nth_error_skipn in Hx.
    split; [lia|]. split; [now exists x|].
    intros i y Hi Hy. apply (Hmin (i - (b + 1)) y); [lia|].
    rewrite nth_error_skipn. now replace (b + 1 + (i - (b + 1))) with i by lia.
  - intros (_ & (x & Hx & Hp) & Hmin). split.
    + exists x. now rewrite nth_error_skipn.
    + intros i y Hi Hy. rewrite nth_error_skipn in Hy.
      apply (Hmin (b + 1 + i) y); [lia|exact Hy].
Qed.

(** C3, as the code has it: a line is a header line exactly when its
    first character is the header marker; [begin_idx] is the index of the
    first header line that contains the title of the usage section, and
    [end_idx] the index of the first header line after it. *)
Theorem find_markers_spec (ls : list string) :
  (forall line, is_header line = true <-> exists t, line = String "#" t) /\
  (forall b, fst (find_markers 0 None ls) = Some b <->
             first_at is_usage_header ls b) /\
  (forall e, snd (find_markers 0 None ls) = Some e <->
             exists b, fst (find_markers 0 None ls) = Some b /\
                       next_at is_header ls b e).
Proof.
  split; [exact is_header_spec|].
  rewrite find_markers_none.
  destruct (find_first is_usage_header ls) as [k|] eqn:F; simpl.
  - split.
    + intros b. rewrite <- find_first_spec, F. reflexivity.
    + intros e. split.
      * destruct (find_first is_header (skipn (k + 1) ls)) as [j|] eqn:G;
          [|discriminate].
        intros [= <-]. exists k. split; [reflexivity|].
        apply first_at_skipn. now apply find_first_spec.
      * intros (b & [= <-] & Hn).
        assert (e = k + 1 + (e - (k + 1))) as E by (destruct Hn; lia).
        rewrite E in Hn. apply first_at_skipn, find_first_spec in Hn.
        rewrite Hn. simpl. f_equal. lia.
  - split.
    + intros b. rewrite <- find_first_spec, F. reflexivity.
    + intros e. split; [discriminate|]. intros (b & Hb & _). discriminate.
Qed.

(** C3, as stated, fails: the first character of ["  ## Usage"] that is
    not a space is the header marker, yet the scan passes the line over,
    and a document whose two headers are indented has no markers. *)
Lemma header_first_nonspace_counterexample :
  spec_is_header "  ## Usage" = true /\
  is_header "  ## Usage" = false /\
  find_markers 0 None
    (readme_lines (unlines ["  ## Usage"; ""; "old"; ""; "  ## More"]))
  = (None, None) /\
  ~ (forall line, is_header line = true <-> spec_is_header line = true).
Proof.
  repeat split; try reflexivity.
  intros H. specialize (H "  ## Usage"). destruct H as [_ H].
  specialize (H eq_refl). discriminate.
Qed.

(** ** The pattern file *)

Lemma startswith_hash_rstrip (s : string) :
  startswith "#" (rstrip s) = startswith "#" s.
Proof.
  unfold startswith. destruct s as [|c t]; [reflexivity|].
  simpl rstrip. destruct (Ascii.eqb "#" c) eqn:E.
  - apply Ascii.eqb_eq in E as <-.
    destruct (rstrip t); simpl isspace; cbv iota;
      now rewrite !prefix_cons, !prefix_nil.
  - destruct (rstrip t) as [|c' r]; [destruct (isspace c)|];
      rewrite ?prefix_cons, ?E; reflexivity.
Qed.

Lemma ignored_line_spec (line : string) :
  ignored_line line = true <->
  strip line <> "" /\ startswith "#" (strip line) = false.
Proof.
  unfold ignored_line. unfold strip at 3.
  rewrite startswith_hash_rstrip, andb_true_iff, !negb_true_iff.
  now rewrite String.eqb_neq.
Qed.

(** C8: a line of the pattern file is kept exactly when, trimmed, it is
    not empty and does not begin with the comment marker; the patterns
    are the kept lines in their order, each without its trailing
    whitespace, and the file of lines [# comment], the empty line and
    [*.log] gives the one pattern [*.log]. *)
Theorem docs_ignored_spec (content : string) :
  (forall line, ignored_line line = true <->
                strip line <> "" /\ startswith "#" (strip line) = false) /\
  docs_ignored content = map rstrip (filter ignored_line (readlines content)) /\
  (forall p, In p (docs_ignored content) <->
             exists line, In line (readlines content) /\
                          (strip line <> "" /\
                           startswith "#" (strip line) = false) /\
                          p = rstrip line) /\
  docs_ignored (unlines ["# comment"; ""; "*.log"]) = ["*.log"].
Proof.
  split; [exact ignored_line_spec|]. split; [reflexivity|].
  split; [|reflexivity].
  intros p. unfold docs_ignored. rewrite in_map_iff. split.
  - intros (line & <- & H). apply filter_In in H as [H1 H2].
    exists line. rewrite <- ignored_line_spec. auto.
  - intros (line & H1 & H2 & ->). exists line. split; [reflexivity|].
    apply filter_In. rewrite ignored_line_spec. auto.
Qed.

(** ** The flag filter *)

Lemma bin_help_unfold (stdout : string) (pre : list string)
      (u usage : string) (rest : list string) :
  help_lines stdout = (pre ++ u :: usage :: rest)%list ->
  (forall l, In l pre -> startswith "USAGE" l = false) ->
  startswith "USAGE" u = true ->
  bin_help stdout =
  Ok (join linesep
        (map indent
           (usage_lines usage ++
            filter (keep_line (findall_flags usage)) rest)%list)).
Proof.
  intros Hl Hpre Hu. unfold bin_help. rewrite Hl.
  assert (drop_preamble (pre ++ u :: usage :: rest)%list
          = Ok (u :: usage :: rest)) as ->.
  { clear Hl. induction pre as [|l t IH]; simpl.
    - now rewrite Hu.
    - rewrite (Hpre l (or_introl eq_refl)). apply IH.
      intros x Hx. apply Hpre. now right. }
  reflexivity.
Qed.




(** ** Lines of the help text *)

Lemma string_ind2 (P : string -> Prop) :
  P "" ->
  (forall c, P (String c "")) ->
  (forall c c' t, P t -> P (String c' t) -> P (String c (String c' t))) ->
  forall s, P s.
Proof.
  intros H0 H1 H2 s.
  assert (P s /\ forall c, P (String c s)) as [H _]; [|exact H].
  induction s as [|c' t [IH1 IH2]]; split; auto.
Qed.

Lemma linebreak_isspace (c : ascii) : is_linebreak c = true -> isspace c = true.
Proof.
  destruct c as [[] [] [] [] [] [] [] []]; simpl; intros H;
    first [reflexivity | discriminate].
Qed.

Lemma cons_hd_in (c : ascii) (ls : list string) (l : string) :
  In l (cons_hd c ls) ->
  l = String c "" \/ (exists l', l = String c l' /\ In l' ls) \/ In l ls.
Proof.
  destruct ls as [|x t]; simpl.
  - intros [<-|[]]. now left.
  - intros [<-|H]; [right; left; exists x; auto|right; right; auto].
Qed.

Lemma splitlines_no_linebreak (s line : string) :
  In line (splitlines s) -> no_linebreak line = true.
Proof.
  revert line. induction s as [| c | c c' t IHt IHc] using string_ind2;
    intros line H.
  - destruct H.
  - simpl in H. destruct (is_linebreak c) eqn:E.
    + destruct H as [<-|[]]. reflexivity.
    + destruct H as [<-|[]]. unfold no_linebreak. simpl. now rewrite E.
  - change (splitlines (String c (String c' t))) with
      (if is_linebreak c
       then "" :: (if Ascii.eqb c CR && Ascii.eqb c' LF
                   then splitlines t else splitlines (String c' t))
       else cons_hd c (splitlines (String c' t))) in H.
    destruct (is_linebreak c) eqn:E.
    + destruct H as [<-|H]; [reflexivity|].
      destruct (Ascii.eqb c CR && Ascii.eqb c' LF); auto.
    + apply cons_hd_in in H as [->|[(l' & -> & H)|H]]; auto.
      * unfold no_linebreak. simpl. now rewrite E.
      * unfold no_linebreak. simpl. rewrite E. simpl. now apply IHc.
Qed.

Lemma rstrip_ends_black (s : string) : ends_black s = true -> rstrip s = s.
Proof.
  induction s as [|c t IH]; [discriminate|].
  simpl. destruct t as [|c' t'].
  - simpl. intros H. apply negb_true_iff in H. now rewrite H.
  - intros H. rewrite (IH H). reflexivity.
Qed.

Lemma ends_black_rstrip (s : string) :
  rstrip s <> "" -> ends_black (rstrip s) = true.
Proof.
  induction s as [|c t IH]; [now intros H|].
  simpl. destruct (rstrip t) as [|c' r] eqn:E.
  - destruct (isspace c) eqn:Ec; [now intros H|].
    intros _. simpl. now rewrite Ec.
  - intros _. change (ends_black (String c' r) = true). now apply IH.
Qed.

Lemma rstrip_idem (s : string) : rstrip (rstrip s) = rstrip s.
Proof.
  destruct (string_dec (rstrip s) "") as [E|E]; [now rewrite E|].
  now apply rstrip_ends_black, ends_black_rstrip.
Qed.

Lemma lstrip_head (s : string) :
  match lstrip s with
  | "" => True
  | String c _ => isspace c = false
  end.
Proof.
  induction s as [|c t IH]; simpl; [exact I|].
  destruct (isspace c) eqn:E; [exact IH|exact E].
Qed.

Lemma rstrip_head (c : ascii) (t : string) :
  isspace c = false -> exists r, rstrip (String c t) = String c r.
Proof.
  intros H. simpl. rewrite H. destruct (rstrip t) as [|c' r]; eauto.
Qed.

Lemma strip_head (s : string) :
  match strip s with
  | "" => True
  | String c _ => isspace c = false
  end.
Proof.
  unfold strip. pose proof (lstrip_head s) as H.
  destruct (lstrip s) as [|c t]; [exact I|].
  destruct (rstrip_head c t H) as [r ->]. exact H.
Qed.

Lemma ends_black_cons (c : ascii) (t : string) :
  t <> "" -> ends_black (String c t) = ends_black t.
Proof. destruct t; [now intros H|reflexivity]. Qed.

Lemma last_cons_hd (c : ascii) (ls : list string) :
  ls <> [] ->
  ends_black (last ls "") = true ->
  ends_black (last (cons_hd c ls) "") = true.
Proof.
  destruct ls as [|x [|y t]]; [now intros H| |]; intros _ H.
  - change (ends_black x = true) in H.
    change (ends_black (String c x) = true).
    rewrite ends_black_cons; [exact H|]. intros ->. discriminate.
  - exact H.
Qed.

Lemma splitlines_last (s : string) :
  ends_black s = true ->
  splitlines s <> [] /\ ends_black (last (splitlines s) "") = true.
Proof.
  induction s as [| c | c c' t IHt IHc] using string_ind2; intros H.
  - discriminate.
  - simpl in H. apply negb_true_iff in H.
    assert (is_linebreak c = false) as E.
    { destruct (is_linebreak c) eqn:E; [|reflexivity].
      apply linebreak_isspace in E. congruence. }
    simpl. rewrite E. simpl. rewrite H. split; [discriminate|reflexivity].
  - change (ends_black (String c' t) = true) in H.
    destruct (IHc H) as [Hne Hl].
    change (splitlines (String c (String c' t))) with
      (if is_linebreak c
       then "" :: (if Ascii.eqb c CR && Ascii.eqb c' LF
                   then splitlines t else splitlines (String c' t))
       else cons_hd c (splitlines (String c' t))).
    destruct (is_linebreak c) eqn:E.
    + split; [discriminate|].
      destruct (Ascii.eqb c CR && Ascii.eqb c' LF) eqn:E2.
      * apply andb_true_iff in E2 as [_ E2]. apply Ascii.eqb_eq in E2 as ->.
        assert (ends_black t = true) as Ht.
        { destruct t; [discriminate|exact H]. }
        destruct (IHt Ht) as [Hne' Hl'].
        destruct (splitlines t); [now elim Hne'|exact Hl'].
      * destruct (splitlines (String c' t)); [now elim Hne|exact Hl].
    + split; [|now apply last_cons_hd].
      destruct (splitlines (String c' t)); discriminate.
Qed.

Lemma splitlines_hd (c : ascii) (t : string) :
  is_linebreak c = false ->
  exists l ls, splitlines (String c t) = String c l :: ls.
Proof.
  intros E. simpl. rewrite E. destruct (splitlines t) as [|x ls]; simpl; eauto.
Qed.

(** C6, as the code has it: the captured text is trimmed as a whole and
    then cut into lines.  The lines hold no line boundary, the first has
    no leading and the last no trailing whitespace; the whitespace at
    the end of any other line stays. *)
Theorem help_lines_trimmed (stdout : string) :
  help_lines stdout = splitlines (strip stdout) /\
  (forall line, In line (help_lines stdout) -> no_linebreak line = true) /\
  lstrip (hd "" (help_lines stdout)) = hd "" (help_lines stdout) /\
  rstrip (last (help_lines stdout) "") = last (help_lines stdout) "".
Proof.
  split; [reflexivity|]. split; [intros line; apply splitlines_no_linebreak|].
  unfold help_lines. split.
  - pose proof (strip_head stdout) as H.
    destruct (strip stdout) as [|c t]; [reflexivity|].
    assert (is_linebreak c = false) as E.
    { destruct (is_linebreak c) eqn:E; [|reflexivity].
      apply linebreak_isspace in E. congruence. }
    destruct (splitlines_hd c t E) as (l & ls & ->). simpl. now rewrite H.
  - destruct (string_dec (strip stdout) "") as [E|E]; [now rewrite E|].
    apply rstrip_ends_black, splitlines_last. unfold strip in *.
    now apply ends_black_rstrip.
Qed.

(** C6, as stated, fails: every line but the last keeps its trailing
    whitespace, and a kept line carries it into the help block. *)
Lemma help_lines_trailing_counterexample :
  help_lines (unlines ["USAGE:  "; "    app"; "  -h  help   "; "end"]) =
    ["USAGE:  "; "    app"; "  -h  help   "; "end"] /\
  rstrip "  -h  help   " <> "  -h  help   " /\
  ~ (forall line,
       In line (help_lines
                  (unlines ["USAGE:  "; "    app"; "  -h  help   "; "end"])) ->
       rstrip line = line) /\
  bin_help (unlines ["USAGE:  "; "    app"; "  -h  help   "; "end"]) =
    Ok (join nl ["    app"; "      -h  help   "; "    end"]).
Proof.
  split; [reflexivity|]. split; [discriminate|]. split; [|reflexivity].
  intros H. specialize (H "  -h  help   ").
  assert (rstrip "  -h  help   " = "  -h  help   ") as K.
  { apply H. vm_compute. right. right. left. reflexivity. }
  discriminate.
Qed.

(** ** Reading back what was written *)

Lemma all_chars_app (p : ascii -> bool) (a b : string) :
  all_chars p (a ++ b) = all_chars p a && all_chars p b.
Proof.
  induction a as [|c a IH]; simpl; [reflexivity|].
  now rewrite IH, andb_assoc.
Qed.

Lemma all_chars_rstrip (p : ascii -> bool) (s : string) :
  all_chars p s = true -> all_chars p (rstrip s) = true.
Proof.
  induction s as [|c t IH]; simpl; [reflexivity|].
  intros H. apply andb_true_iff in H as [Hc Ht]. specialize (IH Ht).
  destruct (rstrip t) as [|c' r].
  - destruct (isspace c); simpl; [reflexivity|now rewrite Hc].
  - simpl in *. now rewrite Hc, IH.
Qed.

Lemma rstrip_app_space (s : string) (c : ascii) :
  isspace c = true -> rstrip (s ++ String c "") = rstrip s.
Proof.
  intros H. induction s as [|a t IH]; simpl.
  - now rewrite H.
  - now rewrite IH.
Qed.

Lemma rstrip_eol (l : string) : rstrip (eol l) = rstrip l.
Proof. now apply rstrip_app_space. Qed.

Lemma unlines_cons (l : string) (ls : list string) :
  unlines (l :: ls) = eol l ++ unlines ls.
Proof. unfold unlines, eol. simpl. now rewrite append_assoc. Qed.

Lemma unlines_app (a b : list string) :
  unlines (a ++ b)%list = unlines a ++ unlines b.
Proof.
  induction a as [|l a IH]; [reflexivity|].
  change ((l :: a) ++ b)%list with (l :: (a ++ b))%list.
  now rewrite !unlines_cons, IH, append_assoc.
Qed.

Lemma universal_newlines_no_cr_in (x rest : string) :
  all_chars not_cr x = true ->
  universal_newlines (x ++ rest) = x ++ universal_newlines rest.
Proof.
  induction x as [|c x IH]; [reflexivity|].
  simpl. intros H. apply andb_true_iff in H as [Hc Hx].
  unfold not_cr in Hc. apply negb_true_iff in Hc. rewrite Hc.
  now rewrite IH.
Qed.

Lemma universal_newlines_fixed (x : string) :
  all_chars not_cr x = true -> universal_newlines x = x.
Proof.
  intros H. rewrite <- (append_nil_r x) at 1.
  rewrite universal_newlines_no_cr_in by exact H. apply append_nil_r.
Qed.

Lemma universal_newlines_cons2 (c c' : ascii) (t : string) :
  universal_newlines (String c (String c' t)) =
  if Ascii.eqb c CR
  then String LF (if Ascii.eqb c' LF then universal_newlines t
                  else universal_newlines (String c' t))
  else String c (universal_newlines (String c' t)).
Proof. reflexivity. Qed.

Lemma universal_newlines_eol_app (x y : string) :
  universal_newlines (eol x ++ y) =
  universal_newlines (eol x) ++ universal_newlines y.
Proof.
  unfold eol.
  induction x as [| c | c c' t IHt IHc] using string_ind2.
  - reflexivity.
  - simpl. destruct (Ascii.eqb c CR); reflexivity.
  - change ((String c (String c' t) ++ nl) ++ y)
      with (String c (String c' ((t ++ nl) ++ y))).
    change (String c (String c' t) ++ nl)
      with (String c (String c' (t ++ nl))).
    rewrite !universal_newlines_cons2.
    change (String c' ((t ++ nl) ++ y)) with ((String c' t ++ nl) ++ y).
    change (String c' (t ++ nl)) with (String c' t ++ nl).
    rewrite IHt, IHc.
    destruct (Ascii.eqb c CR); [destruct (Ascii.eqb c' LF)|]; reflexivity.
Qed.

Lemma universal_newlines_eol_end (x : string) :
  exists z, universal_newlines (eol x) = eol z.
Proof.
  unfold eol.
  induction x as [| c | c c' t IHt IHc] using string_ind2.
  - now exists "".
  - simpl. destruct (Ascii.eqb c CR); [now exists ""|now exists (String c "")].
  - change (String c (String c' t) ++ nl)
      with (String c (String c' (t ++ nl))).
    rewrite universal_newlines_cons2.
    change (String c' (t ++ nl)) with (String c' t ++ nl).
    destruct IHt as [z1 ->], IHc as [z2 ->].
    destruct (Ascii.eqb c CR); [destruct (Ascii.eqb c' LF)|].
    + now exists (String LF z1).
    + now exists (String LF z2).
    + now exists (String c z2).
Qed.

Lemma keepends_nonempty (c : ascii) (t : string) :
  keepends (String c t) <> [].
Proof.
  simpl. destruct (Ascii.eqb c LF); [discriminate|].
  destruct (keepends t); discriminate.
Qed.

Lemma cons_hd_app (c : ascii) (a b : list string) :
  a <> [] -> (cons_hd c (a ++ b) = cons_hd c a ++ b)%list.
Proof. destruct a; [now intros H|reflexivity]. Qed.

Lemma keepends_eol_app (x y : string) :
  keepends (eol x ++ y) = (keepends (eol x) ++ keepends y)%list.
Proof.
  unfold eol. induction x as [|c t IH]; [reflexivity|].
  change ((String c t ++ nl) ++ y) with (String c ((t ++ nl) ++ y)).
  change (String c t ++ nl) with (String c (t ++ nl)).
  simpl keepends. rewrite IH.
  destruct (Ascii.eqb c LF); [reflexivity|].
  apply cons_hd_app. destruct t; [discriminate|apply keepends_nonempty].
Qed.

Lemma keepends_eol (l : string) :
  all_chars not_lf l = true -> keepends (eol l) = [eol l].
Proof.
  unfold eol. induction l as [|c t IH]; [reflexivity|].
  simpl all_chars. intros H. apply andb_true_iff in H as [Hc Ht].
  unfold not_lf in Hc. apply negb_true_iff in Hc.
  change (String c t ++ nl) with (String c (t ++ nl)).
  simpl keepends. rewrite Hc, (IH Ht). reflexivity.
Qed.

Lemma keepends_unlines (ls : list string) :
  (forall l, In l ls -> all_chars not_lf l = true) ->
  keepends (unlines ls) = map eol ls.
Proof.
  induction ls as [|l ls IH]; intros H; [reflexivity|].
  rewrite unlines_cons, keepends_eol_app, keepends_eol, IH; auto.
  - intros x Hx. apply H. now right.
  - apply H. now left.
Qed.

Lemma unlines_no_cr (ls : list string) :
  (forall l, In l ls -> all_chars not_cr l = true) ->
  all_chars not_cr (unlines ls) = true.
Proof.
  induction ls as [|l ls IH]; intros H; [reflexivity|].
  rewrite unlines_cons. unfold eol.
  rewrite !all_chars_app, (H l (or_introl eq_refl)), IH.
  - reflexivity.
  - intros x Hx. apply H. now right.
Qed.

Lemma no_eol_lf (l : string) : no_eol l = true -> all_chars not_lf l = true.
Proof. unfold no_eol. intros H. now apply andb_true_iff in H. Qed.

Lemma no_eol_cr (l : string) : no_eol l = true -> all_chars not_cr l = true.
Proof. unfold no_eol. intros H. now apply andb_true_iff in H. Qed.

Lemma readlines_unlines (ls : list string) :
  (forall l, In l ls -> no_eol l = true) ->
  readlines (unlines ls) = map eol ls.
Proof.
  intros H. unfold readlines.
  rewrite universal_newlines_fixed.
  - apply keepends_unlines. intros l Hl. now apply no_eol_lf, H.
  - apply unlines_no_cr. intros l Hl. now apply no_eol_cr, H.
Qed.

(** Lines free of line ends come back as they were written, whatever
    text, closed by a line separator, stands between them. *)
Lemma readlines_frame (P S : list string) (M : string) :
  (forall l, In l P -> no_eol l = true) ->
  (forall l, In l S -> no_eol l = true) ->
  readlines (unlines P ++ eol M ++ unlines S) =
  (map eol P ++ readlines (eol M) ++ map eol S)%list.
Proof.
  intros HP HS. unfold readlines.
  rewrite universal_newlines_no_cr_in
    by (apply unlines_no_cr; intros l Hl; now apply no_eol_cr, HP).
  rewrite universal_newlines_eol_app.
  rewrite (universal_newlines_fixed (unlines S))
    by (apply unlines_no_cr; intros l Hl; now apply no_eol_cr, HS).
  destruct (universal_newlines_eol_end M) as [z ->].
  assert (keepends (unlines P ++ eol z ++ unlines S) =
          (keepends (unlines P) ++ keepends (eol z ++ unlines S))%list) as ->.
  { clear HS. induction P as [|l P IH]; [reflexivity|].
    rewrite unlines_cons, append_assoc.
    rewrite !(keepends_eol_app l), <- app_assoc. f_equal.
    apply IH. intros x Hx. apply HP. now right. }
  rewrite keepends_eol_app, !keepends_unlines; auto.
  - intros l Hl. now apply no_eol_lf, HS.
  - intros l Hl. now apply no_eol_lf, HP.
Qed.

Lemma keepends_chars (p : ascii -> bool) (s x : string) :
  all_chars p s = true -> In x (keepends s) -> all_chars p x = true.
Proof.
  revert x. induction s as [|c t IH]; intros x H Hx; [destruct Hx|].
  simpl in H. apply andb_true_iff in H as [Hc Ht].
  simpl in Hx. destruct (Ascii.eqb c LF).
  - destruct Hx as [<-|Hx]; [simpl; now rewrite Hc|auto].
  - apply cons_hd_in in Hx as [->|[(l' & -> & Hl)|Hx]]; auto.
    + simpl. now rewrite Hc.
    + simpl. rewrite Hc. simpl. auto.
Qed.

Lemma keepends_shape (s x : string) :
  In x (keepends s) ->
  exists body, (x = eol body \/ x = body) /\ all_chars not_lf body = true.
Proof.
  revert x. induction s as [|c t IH]; intros x Hx; [destruct Hx|].
  simpl in Hx. destruct (Ascii.eqb c LF) eqn:E.
  - destruct Hx as [<-|Hx]; [|auto].
    apply Ascii.eqb_eq in E as ->. exists "". split; [now left|reflexivity].
  - assert (not_lf c = true) as Hc by (unfold not_lf; now rewrite E).
    apply cons_hd_in in Hx as [->|[(l' & -> & Hl)|Hx]]; auto.
    + exists (String c ""). split; [now right|]. simpl. now rewrite Hc.
    + destruct (IH _ Hl) as (body & [->| ->] & Hb);
        exists (String c body); (split; [|simpl; now rewrite Hc]);
        [now left|now right].
Qed.

Lemma universal_newlines_out (s : string) :
  all_chars not_cr (universal_newlines s) = true.
Proof.
  induction s as [| c | c c' t IHt IHc] using string_ind2.
  - reflexivity.
  - simpl. destruct (Ascii.eqb c CR) eqn:E; [reflexivity|].
    simpl. unfold not_cr. now rewrite E.
  - rewrite universal_newlines_cons2.
    destruct (Ascii.eqb c CR) eqn:E.
    + destruct (Ascii.eqb c' LF); simpl; auto.
    + simpl. unfold not_cr at 1. rewrite E. exact IHc.
Qed.

(** What the splice reads: lines without line end and without trailing
    whitespace. *)
Lemma readme_lines_tidy (content l : string) :
  In l (readme_lines content) -> tidy l.
Proof.
  unfold readme_lines, readlines. intros H.
  apply in_map_iff in H as (x & <- & Hx).
  split; [|apply rstrip_idem].
  pose proof (keepends_chars not_cr _ _ (universal_newlines_out content) Hx)
    as Hcr.
  destruct (keepends_shape _ _ Hx) as (body & Hb & Hlf).
  unfold no_eol. rewrite (all_chars_rstrip not_cr _ Hcr), andb_true_r.
  destruct Hb as [-> | ->].
  - rewrite rstrip_eol. now apply all_chars_rstrip.
  - now apply all_chars_rstrip.
Qed.

Lemma join_eol (ls : list string) :
  ls <> [] -> eol (join nl ls) = unlines ls.
Proof.
  unfold eol, join. induction ls as [|x ls IH]; [now intros H|].
  intros _. destruct ls as [|y t].
  - simpl. unfold unlines. simpl. reflexivity.
  - change (concat nl (x :: y :: t)) with (x ++ nl ++ concat nl (y :: t)).
    rewrite unlines_cons, !append_assoc, IH by discriminate.
    unfold eol. now rewrite append_assoc.
Qed.

Lemma readme_content_eq (P S : list string) (help : string) :
  P <> [] -> S <> [] ->
  join linesep [join linesep P; ""; help; ""; join linesep S; ""] =
  unlines (P ++ [""; help; ""] ++ S)%list.
Proof.
  intros HP HS. rewrite !unlines_app, <- (join_eol P HP), <- (join_eol S HS).
  unfold linesep, join, eol, unlines, nl. simpl.
  rewrite !append_assoc. reflexivity.
Qed.

Lemma find_markers_found (ls : list string) (b e : nat) :
  find_markers 0 None ls = (Some b, Some e) ->
  find_first is_usage_header ls = Some b /\
  exists j, e = b + 1 + j /\
            find_first is_header (skipn (b + 1) ls) = Some j.
Proof.
  rewrite find_markers_none.
  destruct (find_first is_usage_header ls) as [k|]; [|discriminate].
  simpl. destruct (find_first is_header (skipn (k + 1) ls)) as [j|] eqn:E;
    [|discriminate].
  simpl. intros [= <- <-]. split; [reflexivity|]. now exists j.
Qed.

Lemma find_first_lt {A : Type} (p : A -> bool) (ls : list A) (k : nat) :
  find_first p ls = Some k -> k < List.length ls.
Proof.
  intros H. apply find_first_spec in H as [(x & Hx & _) _].
  apply nth_error_Some. congruence.
Qed.

Lemma markers_in_range (ls : list string) (b e : nat) :
  find_markers 0 None ls = (Some b, Some e) ->
  b < e /\ e < List.length ls.
Proof.
  intros H. destruct (find_markers_found _ _ _ H) as (Hb & j & -> & Hj).
  apply find_first_lt in Hj. rewrite length_skipn in Hj. lia.
Qed.

Lemma firstn_nonempty {A : Type} (n : nat) (ls : list A) :
  n < List.length ls -> firstn (n + 1) ls <> [].
Proof.
  destruct ls; simpl; [lia|]. rewrite Nat.add_1_r. discriminate.
Qed.

Lemma skipn_nonempty {A : Type} (n : nat) (ls : list A) :
  n < List.length ls -> skipn n ls <> [].
Proof.
  intros H E. apply (f_equal (@List.length A)) in E.
  rewrite length_skipn in E. simpl in E. lia.
Qed.

Lemma in_firstn {A : Type} (n : nat) (ls : list A) (x : A) :
  In x (firstn n ls) -> In x ls.
Proof.
  intros H. rewrite <- (firstn_skipn n ls). apply in_or_app. now left.
Qed.

Lemma in_skipn {A : Type} (n : nat) (ls : list A) (x : A) :
  In x (skipn n ls) -> In x ls.
Proof.
  intros H. rewrite <- (firstn_skipn n ls). apply in_or_app. now right.
Qed.

Lemma readme_lines_frame (P S : list string) (help : string) :
  (forall l, In l P -> tidy l) ->
  (forall l, In l S -> tidy l) ->
  readme_lines (unlines (P ++ [""; help; ""] ++ S)%list) =
  (P ++ readme_lines (unlines [""; help; ""]) ++ S)%list.
Proof.
  intros TP TS. rewrite !unlines_app.
  replace (unlines [""; help; ""]) with (eol (nl ++ help ++ nl))
    by (unfold unlines, eol; simpl; now rewrite !append_assoc).
  unfold readme_lines at 1.
  rewrite readlines_frame, !map_app, !map_map.
  - f_equal; [|f_equal].
    + rewrite <- (map_id P) at 2. apply map_ext_in.
      intros l Hl. rewrite rstrip_eol. now apply TP.
    + rewrite <- (map_id S) at 2. apply map_ext_in.
      intros l Hl. rewrite rstrip_eol. now apply TS.
  - intros l Hl. now apply TP.
  - intros l Hl. now apply TS.
Qed.

(** C7, as the code has it: when both markers are found the splice
    returns normally and the file then holds, each followed by the line
    separator: the lines up to and including [begin_idx], an empty line,
    the help block, an empty line, and the lines from [end_idx] on, the
    lines being those of [readme_lines], read with their line ends
    normalised and their trailing whitespace removed.  Read again, the
    document starts with the same lines up to [begin_idx] and ends with
    the same lines from [end_idx] on. *)
Theorem bin_readme_frame (help content : string) (b e : nat) :
  find_markers 0 None (readme_lines content) = (Some b, Some e) ->
  let before := firstn (b + 1) (readme_lines content) in
  let after := skipn e (readme_lines content) in
  bin_readme help content =
    (None, unlines (before ++ [""; help; ""] ++ after)%list) /\
  readme_lines (unlines (before ++ [""; help; ""] ++ after)%list) =
    (before ++ readme_lines (unlines [""; help; ""]) ++ after)%list.
Proof.
  intros H before after.
  destruct (markers_in_range _ _ _ H) as [Hbe He].
  split.
  - unfold bin_readme. rewrite H. f_equal.
    apply readme_content_eq.
    + apply firstn_nonempty. lia.
    + now apply skipn_nonempty.
  - apply readme_lines_frame; intros l Hl;
      apply (readme_lines_tidy content).
    + now apply (in_firstn (b + 1)).
    + now apply (in_skipn e).
Qed.

Lemma bin_readme_frame_witness :
  bin_readme "    rh" sample_readme =
  (None,
   unlines (["# rush"; ""; "Intro"; ""; "## Usage"] ++ [""; "    rh"; ""] ++
            ["## More"; "tail"])%list).
Proof.
  apply (bin_readme_frame "    rh" sample_readme 4 8). reflexivity.
Defined.

(** ** Splicing the same block twice *)

Lemma all_chars_impl (p q : ascii -> bool) (s : string) :
  (forall c, p c = true -> q c = true) ->
  all_chars p s = true -> all_chars q s = true.
Proof.
  intros Hpq. induction s as [|c t IH]; simpl; [reflexivity|].
  intros H. apply andb_true_iff in H as [Hc Ht].
  now rewrite (Hpq c Hc), IH.
Qed.

Lemma linebreak_lf_cr (c : ascii) :
  is_linebreak c = false -> not_lf c = true /\ not_cr c = true.
Proof.
  intros H. unfold not_lf, not_cr.
  destruct (Ascii.eqb c LF) eqn:E1.
  - apply Ascii.eqb_eq in E1. subst c. discriminate.
  - destruct (Ascii.eqb c CR) eqn:E2; [|auto].
    apply Ascii.eqb_eq in E2. subst c. discriminate.
Qed.

Lemma no_linebreak_no_eol (l : string) :
  no_linebreak l = true -> no_eol l = true.
Proof.
  unfold no_linebreak, no_eol. intros H. apply andb_true_iff.
  split; revert H; apply all_chars_impl; intros c Hc;
    apply negb_true_iff in Hc; now apply linebreak_lf_cr.
Qed.

Lemma usage_lines_no_linebreak (usage l : string) :
  In l (usage_lines usage) -> no_linebreak l = true.
Proof. apply splitlines_no_linebreak. Qed.

(** The help block is a list of indented lines joined by the line
    separator, none of which holds a line boundary. *)
Lemma bin_help_block (stdout help : string) :
  bin_help stdout = Ok help ->
  exists ls, help = join nl (map indent ls) /\
             forall l, In l ls -> no_linebreak l = true.
Proof.
  unfold bin_help. intros H.
  destruct (drop_preamble (help_lines stdout)) as [r|] eqn:E; [|discriminate].
  destruct (drop_preamble_ok _ _ E) as (pre & u & rest & Hl & -> & _ & _).
  simpl in H. destruct rest as [|usage rest]; [discriminate|].
  simpl in H. injection H as <-.
  eexists. split; [reflexivity|].
  intros l Hin. apply in_app_or in Hin as [Hin|Hin].
  - now apply (usage_lines_no_linebreak usage).
  - apply filter_In in Hin as [Hin _].
    apply (splitlines_no_linebreak (strip stdout)).
    fold (help_lines stdout). rewrite Hl.
    apply in_or_app. right. right. now right.
Qed.

Lemma is_header_rstrip (l : string) : is_header (rstrip l) = is_header l.
Proof. apply startswith_hash_rstrip. Qed.

Lemma is_header_indent (l : string) : is_header (indent l) = false.
Proof. reflexivity. Qed.

Lemma indent_no_eol (l : string) : no_eol l = true -> no_eol (indent l) = true.
Proof.
  unfold no_eol, indent. intros H. apply andb_true_iff in H as [H1 H2].
  now rewrite !all_chars_app, H1, H2.
Qed.

(** Between the markers the rewritten document has no header line. *)
Lemma block_no_header (ls : list string) (m : string) :
  (forall l, In l ls -> no_linebreak l = true) ->
  In m (readme_lines (unlines [""; join nl (map indent ls); ""])) ->
  is_header m = false.
Proof.
  intros Hls Hm. destruct ls as [|x ls].
  - vm_compute in Hm. destruct Hm as [<-|[<-|[<-|[]]]]; reflexivity.
  - assert (unlines [""; join nl (map indent (x :: ls)); ""] =
            unlines ("" :: map indent (x :: ls) ++ [""])%list) as E.
    { rewrite !unlines_cons, unlines_app, <- (join_eol (map indent (x :: ls)))
        by discriminate.
      rewrite !unlines_cons. reflexivity. }
    rewrite E in Hm. unfold readme_lines in Hm.
    rewrite readlines_unlines, map_map in Hm.
    + apply in_map_iff in Hm as (y & <- & Hy).
      rewrite rstrip_eol, is_header_rstrip.
      destruct Hy as [<-|Hy]; [reflexivity|].
      apply in_app_or in Hy as [Hy|[<-|[]]]; [|reflexivity].
      apply in_map_iff in Hy as (z & <- & _). apply is_header_indent.
    + intros l [<-|Hl]; [reflexivity|].
      apply in_app_or in Hl as [Hl|[<-|[]]]; [|reflexivity].
      apply in_map_iff in Hl as (z & <- & Hz).
      now apply indent_no_eol, no_linebreak_no_eol, Hls.
Qed.

Lemma find_first_app_l {A : Type} (p : A -> bool) (a b : list A) (k : nat) :
  find_first p a = Some k -> find_first p (a ++ b)%list = Some k.
Proof.
  revert k. induction a as [|x a IH]; intros k; simpl; [discriminate|].
  destruct (p x); [auto|].
  destruct (find_first p a) as [j|]; [|discriminate].
  intros [= <-]. now rewrite (IH j eq_refl).
Qed.

Lemma find_first_app_r {A : Type} (p : A -> bool) (a b : list A) :
  (forall x, In x a -> p x = false) ->
  find_first p (a ++ b)%list =
  option_map (fun j => List.length a + j) (find_first p b).
Proof.
  induction a as [|x a IH]; intros H; simpl.
  - now destruct (find_first p b).
  - rewrite (H x (or_introl eq_refl)), IH by (intros y Hy; apply H; now right).
    now destruct (find_first p b).
Qed.

Lemma find_first_firstn {A : Type} (p : A -> bool) (ls : list A) (k : nat) :
  find_first p ls = Some k -> find_first p (firstn (k + 1) ls) = Some k.
Proof.
  revert k. induction ls as [|x ls IH]; intros k; simpl; [discriminate|].
  destruct (p x) eqn:E.
  - intros [= <-]. simpl. now rewrite E.
  - destruct (find_first p ls) as [j|]; [|discriminate].
    intros [= <-]. simpl. now rewrite E, (IH j eq_refl).
Qed.

Lemma find_first_skipn {A : Type} (p : A -> bool) (ls : list A) (k : nat) :
  find_first p ls = Some k -> find_first p (skipn k ls) = Some 0.
Proof.
  revert k. induction ls as [|x ls IH]; intros k; simpl; [discriminate|].
  destruct (p x) eqn:E.
  - intros [= <-]. simpl. now rewrite E.
  - destruct (find_first p ls) as [j|]; [|discriminate].
    intros [= <-]. simpl. now apply IH.
Qed.

(** A document in the form the splice writes is left as it is. *)
Lemma bin_readme_fixed (help : string) (P S : list string) (b : nat) :
  (forall l, In l P -> tidy l) ->
  (forall l, In l S -> tidy l) ->
  find_first is_usage_header P = Some b ->
  List.length P = b + 1 ->
  find_first is_header S = Some 0 ->
  (forall m, In m (readme_lines (unlines [""; help; ""])) ->
             is_header m = false) ->
  bin_readme help (unlines (P ++ [""; help; ""] ++ S)%list) =
  (None, unlines (P ++ [""; help; ""] ++ S)%list).
Proof.
  intros TP TS HP HlP HS Hmid.
  set (mid := readme_lines (unlines [""; help; ""])) in *.
  unfold bin_readme. rewrite (readme_lines_frame P S help TP TS). fold mid.
  clearbody mid.
  assert (skipn (b + 1) (P ++ mid ++ S)%list = (mid ++ S)%list) as Hskip.
  { rewrite skipn_app, <- HlP, skipn_all, Nat.sub_diag. reflexivity. }
  assert (find_markers 0 None (P ++ mid ++ S)%list =
          (Some b, Some (b + 1 + List.length mid))) as ->.
  { rewrite find_markers_none, (find_first_app_l _ _ _ _ HP).
    cbn [Nat.add]. rewrite Hskip, (find_first_app_r _ _ _ Hmid), HS.
    cbn [option_map]. now rewrite Nat.add_0_r. }
  f_equal.
  assert (firstn (b + 1) (P ++ mid ++ S)%list = P) as ->.
  { rewrite firstn_app, <- HlP, firstn_all, Nat.sub_diag, firstn_O.
    apply app_nil_r. }
  assert (skipn (b + 1 + List.length mid) (P ++ mid ++ S)%list = S) as ->.
  { rewrite (Nat.add_comm (b + 1)), <- skipn_skipn, Hskip.
    rewrite skipn_app, skipn_all, Nat.sub_diag. reflexivity. }
  apply readme_content_eq.
  - destruct P; [simpl in HlP; lia|discriminate].
  - destruct S; discriminate.
Qed.

(** C4, as the code has it: the splice is idempotent.  After a splice of
    a normalised help block that found both markers, a second splice of
    the same block finds them again and writes the very same content. *)
Theorem bin_readme_idempotent (stdout help content new : string) :
  bin_help stdout = Ok help ->
  bin_readme help content = (None, new) ->
  bin_readme help new = (None, new).
Proof.
  intros Hh Hr.
  destruct (bin_help_block _ _ Hh) as (ls & -> & Hls).
  unfold bin_readme in Hr.
  destruct (find_markers 0 None (readme_lines content)) as [[b|] [e|]] eqn:F;
    try discriminate.
  destruct (markers_in_range _ _ _ F) as [Hbe He].
  destruct (find_markers_found _ _ _ F) as (Hb & j & -> & Hj).
  rewrite readme_content_eq in Hr
    by (first [apply firstn_nonempty; lia | now apply skipn_nonempty]).
  injection Hr as <-.
  apply (bin_readme_fixed _ _ _ b).
  - intros l Hl. apply (readme_lines_tidy content).
    now apply (in_firstn (b + 1)).
  - intros l Hl. apply (readme_lines_tidy content).
    now apply (in_skipn (b + 1 + j)).
  - now apply find_first_firstn.
  - rewrite length_firstn. lia.
  - rewrite (Nat.add_comm (b + 1)), <- skipn_skipn.
    now apply find_first_skipn.
  - intros m. now apply block_no_header.
Qed.

Lemma bin_readme_idempotent_witness :
  bin_readme "    rh" (unlines ["## Usage"; ""; "    rh"; ""; "## More"]) =
  (None, unlines ["## Usage"; ""; "    rh"; ""; "## More"]).
Proof.
  apply (bin_readme_idempotent usage_stdout "    rh" trailing_readme);
    reflexivity.
Defined.

(** C4, as stated, fails: [trailing_readme] holds the block between the
    markers, and the splice of the same block removes the whitespace
    that ends its last line. *)
Lemma holds_block_counterexample :
  bin_help usage_stdout = Ok "    rh" /\
  holds_block "    rh" trailing_readme /\
  bin_readme "    rh" trailing_readme =
    (None, unlines ["## Usage"; ""; "    rh"; ""; "## More"]) /\
  ~ (forall stdout help content,
       bin_help stdout = Ok help -> holds_block help content ->
       bin_readme help content = (None, content)).
Proof.
  assert (holds_block "    rh" trailing_readme) as Hb.
  { exists [eol "## Usage"], [eol "## More  "]. split; reflexivity. }
  split; [reflexivity|]. split; [exact Hb|]. split; [reflexivity|].
  intros H. specialize (H usage_stdout _ _ eq_refl Hb). discriminate.
Qed.

(** ** The synopsis opens the help block *)

Lemma split_from_cons (sep : string) (k : nat) (c : ascii) (t : string) :
  split_from sep k (String c t) =
  match k with
  | S k' => split_from sep k' t
  | O => if prefix sep (String c t)
         then "" :: split_from sep (length sep - 1) t
         else cons_hd c (split_from sep 0 t)
  end.
Proof. reflexivity. Qed.

Lemma replace_from_cons (old new : string) (k : nat) (c : ascii) (t : string) :
  replace_from old new k (String c t) =
  match k with
  | S k' => replace_from old new k' t
  | O => if prefix old (String c t)
         then new ++ replace_from old new (length old - 1) t
         else String c (replace_from old new 0 t)
  end.
Proof. reflexivity. Qed.

Lemma split_from_nonempty (sep : string) (k : nat) (s : string) :
  split_from sep k s <> [].
Proof.
  revert k. induction s as [|c t IH]; intros k; [discriminate|].
  rewrite split_from_cons. destruct k; [|apply IH].
  destruct (prefix sep (String c t)); [discriminate|].
  destruct (split_from sep 0 t); discriminate.
Qed.

Lemma join_cons_hd (sep : string) (c : ascii) (ls : list string) :
  exists r, join sep (cons_hd c ls) = String c r.
Proof.
  unfold join. destruct ls as [|x [|y t]]; simpl; eauto.
Qed.

Lemma join_split_head (c : ascii) (t : string) :
  exists r, join ("]" ++ nl ++ "    ") (split "] " (String c t)) = String c r.
Proof.
  unfold split. rewrite split_from_cons.
  destruct (prefix "] " (String c t)) eqn:E.
  - apply prefix_inv in E as [t' E]. simpl in E. injection E as -> _.
    pose proof (split_from_nonempty "] " (length "] " - 1) t) as N.
    destruct (split_from "] " (length "] " - 1) t) as [|x xs]; [now elim N|].
    unfold join. simpl. eauto.
  - apply join_cons_hd.
Qed.

Lemma replace_head (c : ascii) (t : string) :
  exists r, replace "rush" "rh" (String c t) = String c r.
Proof.
  unfold replace. rewrite replace_from_cons.
  destruct (prefix "rush" (String c t)) eqn:E.
  - apply prefix_inv in E as [t' E]. simpl in E. injection E as -> _.
    simpl. eauto.
  - eauto.
Qed.

Lemma not_space_not_linebreak (c : ascii) :
  isspace c = false -> is_linebreak c = false.
Proof.
  intros H. destruct (is_linebreak c) eqn:E; [|reflexivity].
  apply linebreak_isspace in E. congruence.
Qed.

(** The first line of the reformatted synopsis starts with the first
    character of the synopsis that is not whitespace. *)
Lemma usage_lines_head (usage : string) (c : ascii) (t : string) :
  strip usage = String c t ->
  exists l more, usage_lines usage = String c l :: more.
Proof.
  intros E. unfold usage_lines. rewrite E.
  pose proof (strip_head usage) as H. rewrite E in H.
  destruct (join_split_head c t) as [r ->].
  destruct (replace_head c r) as [r' ->].
  now apply splitlines_hd, not_space_not_linebreak.
Qed.

Lemma join_indent_first (first : string) (more : list string) :
  exists tail, join linesep (map indent (first :: more)) = indent first ++ tail
               /\ (tail = "" \/ prefix nl tail = true).
Proof.
  unfold join. destruct more as [|x t].
  - exists "". simpl map. simpl concat. rewrite append_nil_r. auto.
  - exists (linesep ++ concat linesep (map indent (x :: t))).
    split; [reflexivity|]. right. apply prefix_app.
Qed.

(** C2, as the code has it: for a help text whose lines are a preamble,
    a line that starts with [USAGE], the synopsis and further lines, the
    help block is made of the reformatted synopsis and the kept further
    lines, all indented; it is the same whatever the preamble and the
    header line are; and when the synopsis is not blank, the block opens
    with the indented first line of the reformatted synopsis. *)
Theorem bin_help_synopsis_first (stdout : string) (pre : list string)
        (u usage : string) (rest : list string) :
  help_lines stdout = (pre ++ u :: usage :: rest)%list ->
  (forall l, In l pre -> startswith "USAGE" l = false) ->
  startswith "USAGE" u = true ->
  bin_help stdout =
    Ok (join linesep
          (map indent
             (usage_lines usage ++
              filter (keep_line (findall_flags usage)) rest)%list)) /\
  (forall stdout' pre' u',
      help_lines stdout' = (pre' ++ u' :: usage :: rest)%list ->
      (forall l, In l pre' -> startswith "USAGE" l = false) ->
      startswith "USAGE" u' = true ->
      bin_help stdout' = bin_help stdout) /\
  (strip usage <> "" ->
   exists first more tail,
     usage_lines usage = first :: more /\
     first <> "" /\ no_linebreak first = true /\
     bin_help stdout = Ok (indent first ++ tail) /\
     (tail = "" \/ prefix nl tail = true)).
Proof.
  intros Hl Hpre Hu.
  pose proof (bin_help_unfold _ _ _ _ _ Hl Hpre Hu) as E.
  split; [exact E|]. split.
  - intros stdout' pre' u' Hl' Hpre' Hu'.
    now rewrite E, (bin_help_unfold _ _ _ _ _ Hl' Hpre' Hu').
  - intros Hs. destruct (strip usage) as [|c t] eqn:S; [now elim Hs|].
    destruct (usage_lines_head _ _ _ S) as (l & more & Hul).
    rewrite E, Hul.
    destruct (join_indent_first (String c l)
                (more ++ filter (keep_line (findall_flags usage)) rest)%list)
      as (tail & Ht & Htail).
    exists (String c l), more, tail. repeat split; auto.
    + discriminate.
    + apply (usage_lines_no_linebreak usage). rewrite Hul. now left.
    + rewrite <- Ht. reflexivity.
Qed.

Lemma bin_help_synopsis_first_witness :
  exists first more tail,
    usage_lines "    rush [OPTIONS] [--before <EXPR>] [--pretty] <EXPRESSION>..."
      = first :: more /\
    first <> "" /\ no_linebreak first = true /\
    bin_help sample_help = Ok (indent first ++ tail) /\
    (tail = "" \/ prefix nl tail = true).
Proof.
  apply (bin_help_synopsis_first sample_help
           ["rush 0.1.0"; "Succinct & readable processing language"; ""]
           "USAGE:"
           "    rush [OPTIONS] [--before <EXPR>] [--pretty] <EXPRESSION>..."
           [ "";
             "OPTIONS:";
             "    -i, --input <MODE>     Defines how the input is treated";
             "        --before <EXPR>    Expression to evaluate before";
             "    -p, --pretty           Pretty output" ]).
  - reflexivity.
  - intros l [<-|[<-|[<-|[]]]]; reflexivity.
  - reflexivity.
  - discriminate.
Defined.

(** C2, as stated, fails in three ways: a help text that ends with its
    [USAGE] line gives no output at all; a preamble line can be a line of
    the output when the text after the synopsis repeats it; and after a
    blank synopsis line the output opens with no synopsis (here it is
    empty, every line that mentions a flag being dropped). *)
Lemma preamble_claim_counterexample :
  bin_help no_synopsis_help = Raise IndexError /\
  ~ preamble_claim no_synopsis_help /\
  bin_help echo_help = Ok (join nl ["    rh"; "    note"]) /\
  ~ preamble_claim echo_help /\
  bin_help blank_synopsis_help = Ok "" /\
  ~ preamble_claim blank_synopsis_help.
Proof.
  split; [reflexivity|]. split; [|split; [reflexivity|split; [|split; [reflexivity|]]]].
  - intros H.
    destruct (H ["About app"] "USAGE:" []) as (out & Hout & _);
      try reflexivity; try discriminate.
    intros l [<-|[]]. reflexivity.
  - intros H.
    destruct (H ["About app"; "    note"] "USAGE:" ["    rush"; "note"])
      as (out & Hout & _ & Hno); try reflexivity; try discriminate.
    + intros l [<-|[<-|[]]]; reflexivity.
    + injection Hout as <-. apply (Hno "    note").
      * right. now left.
      * vm_compute. right. now left.
  - intros H.
    destruct (H ["About app"] "USAGE:"
                [""; "    rush [--all]"; "    --all  everything"])
      as (out & _ & (synopsis & first & Hs & Hf & _) & _);
      try reflexivity; try discriminate.
    + intros l [<-|[]]. reflexivity.
    + injection Hs as <-. discriminate.
Qed.

(** ** When normalisation succeeds, and what its block looks like *)

(** [bin_help] returns a block exactly when, among the lines of the
    trimmed text ([help_lines], the [strip] and [splitlines] of line
    61), the first one that starts with [USAGE] is followed by a further
    line; otherwise lines 64-67 raise [IndexError]. *)
Theorem bin_help_succeeds_iff (stdout : string) :
  (exists help, bin_help stdout = Ok help) <->
  (exists pre u usage rest,
     help_lines stdout = (pre ++ u :: usage :: rest)%list /\
     (forall l, In l pre -> startswith "USAGE" l = false) /\
     startswith "USAGE" u = true).
Proof.
  split.
  - intros [help H]. unfold bin_help in H.
    destruct (drop_preamble (help_lines stdout)) as [r|] eqn:E;
      [|discriminate].
    destruct (drop_preamble_ok _ _ E) as (pre & u & rest & Hl & -> & Hu & Hp).
    destruct rest as [|usage rest]; [discriminate|].
    now exists pre, u, usage, rest.
  - intros (pre & u & usage & rest & Hl & Hp & Hu).
    eexists. now apply (bin_help_unfold _ pre u usage rest).
Qed.

Lemma split_nl_cons (c : ascii) (t : string) :
  split nl (String c t) =
  if Ascii.eqb c LF then "" :: split nl t else cons_hd c (split nl t).
Proof.
  unfold split. rewrite split_from_cons. unfold nl at 1.
  rewrite prefix_cons, prefix_nil, andb_true_r, Ascii.eqb_sym.
  reflexivity.
Qed.

Lemma split_nl_last (l : string) :
  all_chars not_lf l = true -> split nl l = [l].
Proof.
  induction l as [|c t IH]; [reflexivity|].
  simpl all_chars. intros H. apply andb_true_iff in H as [Hc Ht].
  unfold not_lf in Hc. apply negb_true_iff in Hc.
  now rewrite split_nl_cons, Hc, (IH Ht).
Qed.

Lemma split_nl_line (l rest : string) :
  all_chars not_lf l = true ->
  split nl (l ++ nl ++ rest) = l :: split nl rest.
Proof.
  induction l as [|c t IH].
  - intros _. change ("" ++ nl ++ rest) with (String LF rest).
    now rewrite split_nl_cons, Ascii.eqb_refl.
  - simpl all_chars. intros H. apply andb_true_iff in H as [Hc Ht].
    unfold not_lf in Hc. apply negb_true_iff in Hc.
    change (String c t ++ nl ++ rest) with (String c (t ++ nl ++ rest)).
    now rewrite split_nl_cons, Hc, (IH Ht).
Qed.

(** Cutting at the line separator undoes joining with it. *)
Lemma split_join_nl (ls : list string) :
  ls <> [] ->
  (forall l, In l ls -> all_chars not_lf l = true) ->
  split nl (join nl ls) = ls.
Proof.
  unfold join. induction ls as [|x ls IH]; [now intros H|].
  intros _ H. destruct ls as [|y t].
  - simpl. apply split_nl_last, H. now left.
  - change (concat nl (x :: y :: t)) with (x ++ nl ++ concat nl (y :: t)).
    rewrite split_nl_line by (apply H; now left).
    f_equal. apply IH; [discriminate|].
    intros l Hl. apply H. now right.
Qed.

Lemma no_linebreak_indent (l : string) :
  no_linebreak l = true -> no_linebreak (indent l) = true.
Proof.
  unfold no_linebreak, indent. intros H. now rewrite all_chars_app, H.
Qed.

(** The block [bin_help] returns is empty or made of lines that all
    start with four spaces and hold no line boundary, so that none of
    them is a header line of the README (lines 73-80). *)
Theorem help_block_lines (stdout help : string) :
  bin_help stdout = Ok help ->
  help = "" \/
  (forall l, In l (split linesep help) ->
             startswith "    " l = true /\
             no_linebreak l = true /\
             is_header l = false).
Proof.
  intros H. destruct (bin_help_block _ _ H) as (ls & -> & Hls).
  destruct ls as [|x ls]; [now left|]. right.
  unfold linesep. rewrite split_join_nl.
  - intros l Hl. apply in_map_iff in Hl as (y & <- & Hy).
    split; [apply prefix_app|]. split; [|apply is_header_indent].
    now apply no_linebreak_indent, Hls.
  - discriminate.
  - intros l Hl. apply in_map_iff in Hl as (y & <- & Hy).
    now apply no_eol_lf, indent_no_eol, no_linebreak_no_eol, Hls.
Qed.

Lemma help_block_lines_witness :
  startswith "    " "    rh" = true /\
  no_linebreak "    rh" = true /\
  is_header "    rh" = false.
Proof.
  destruct (help_block_lines usage_stdout "    rh" eq_refl) as [H|H];
    [discriminate|].
  apply H. vm_compute. now left.
Defined.

(** ** The binary name in the synopsis *)

Lemma replace_rush_hit (t : string) :
  replace "rush" "rh" ("rush" ++ t) = "rh" ++ replace "rush" "rh" t.
Proof.
  unfold replace.
  change ("rush" ++ t)
    with (String "r" (String "u" (String "s" (String "h" t)))).
  rewrite replace_from_cons, !prefix_cons, prefix_nil. reflexivity.
Qed.

Lemma replace_rush_miss (c : ascii) (t : string) :
  prefix "rush" (String c t) = false ->
  replace "rush" "rh" (String c t) = String c (replace "rush" "rh" t).
Proof. intros H. unfold replace. now rewrite replace_from_cons, H. Qed.

Lemma replace_keeps_prefix (p s : string) :
  all_chars not_r p = true ->
  prefix p (replace "rush" "rh" s) = true -> prefix p s = true.
Proof.
  revert s. induction p as [|a p IH]; intros s Hp H; [apply prefix_nil|].
  simpl in Hp. apply andb_true_iff in Hp as [Ha Hp].
  unfold not_r in Ha. apply negb_true_iff in Ha.
  destruct s as [|c t]; [discriminate|].
  destruct (prefix "rush" (String c t)) eqn:E.
  - apply prefix_inv in E as [t' E]. rewrite E, replace_rush_hit in H.
    change ("rh" ++ replace "rush" "rh" t')
      with (String "r" (String "h" (replace "rush" "rh" t'))) in H.
    rewrite prefix_cons, Ha in H. discriminate.
  - rewrite (replace_rush_miss _ _ E), prefix_cons in H.
    apply andb_true_iff in H as [Hac H].
    rewrite prefix_cons, Hac. now apply IH.
Qed.

Lemma replace_no_rush_prefix (s : string) :
  prefix "rush" (replace "rush" "rh" s) = false.
Proof.
  destruct s as [|c t]; [reflexivity|].
  destruct (prefix "rush" (String c t)) eqn:E.
  - apply prefix_inv in E as [t' E]. rewrite E, replace_rush_hit.
    change ("rh" ++ replace "rush" "rh" t')
      with (String "r" (String "h" (replace "rush" "rh" t'))).
    now rewrite !prefix_cons.
  - rewrite (replace_rush_miss _ _ E).
    destruct (prefix "rush" (String c (replace "rush" "rh" t))) eqn:F;
      [|reflexivity].
    rewrite prefix_cons in F. apply andb_true_iff in F as [Fc F].
    apply replace_keeps_prefix in F; [|reflexivity].
    rewrite prefix_cons, Fc, F in E. discriminate.
Qed.

Lemma replace_no_rush (s : string) :
  contains "rush" (replace "rush" "rh" s) = false.
Proof.
  remember (length s) as n eqn:Hn.
  assert (length s <= n) as Hle by lia. clear Hn.
  revert s Hle. induction n as [|n IH]; intros s Hle.
  - destruct s; [reflexivity|simpl in Hle; lia].
  - destruct s as [|c t]; [reflexivity|].
    destruct (prefix "rush" (String c t)) eqn:E.
    + apply prefix_inv in E as [t' E]. rewrite E, replace_rush_hit.
      change ("rh" ++ replace "rush" "rh" t')
        with (String "r" (String "h" (replace "rush" "rh" t'))).
      rewrite !contains_cons, !prefix_cons. simpl.
      apply IH. apply (f_equal length) in E. simpl in E, Hle. lia.
    + pose proof (replace_no_rush_prefix (String c t)) as F.
      rewrite (replace_rush_miss _ _ E) in F |- *.
      rewrite contains_cons, F. simpl. apply IH. simpl in Hle. lia.
Qed.

Lemma Substring_cons (c : ascii) (l y : string) :
  Substring l y -> Substring l (String c y).
Proof. intros (pre & post & ->). now exists (String c pre), post. Qed.

Lemma Substring_prefix (l post : string) : Substring l (l ++ post).
Proof. now exists "", post. Qed.

Lemma Substring_trans (a b c : string) :
  Substring a b -> Substring b c -> Substring a c.
Proof.
  intros (p1 & q1 & ->) (p2 & q2 & ->).
  exists (p2 ++ p1), (q1 ++ q2). now rewrite !append_assoc.
Qed.

(** The first line of [splitlines] opens the text, the others lie in it. *)
Lemma splitlines_pieces (x : string) :
  match splitlines x with
  | [] => True
  | l0 :: ls =>
      (exists post, x = l0 ++ post) /\ (forall l, In l ls -> Substring l x)
  end.
Proof.
  assert (forall y,
            match splitlines y with
            | [] => True
            | l0 :: ls => (exists post, y = l0 ++ post) /\
                          (forall l, In l ls -> Substring l y)
            end ->
            forall l, In l (splitlines y) -> Substring l y) as All.
  { intros y H l Hl. destruct (splitlines y) as [|l0 ls]; [destruct Hl|].
    destruct H as [[post Hp] Hs]. destruct Hl as [<-|Hl]; [|auto].
    rewrite Hp. apply Substring_prefix. }
  induction x as [| c | c c' t IHt IHc] using string_ind2.
  - exact I.
  - simpl. destruct (is_linebreak c); simpl.
    + split; [now exists (String c "")|intros l []].
    + split; [now exists ""|intros l []].
  - change (splitlines (String c (String c' t))) with
      (if is_linebreak c
       then "" :: (if Ascii.eqb c CR && Ascii.eqb c' LF
                   then splitlines t else splitlines (String c' t))
       else cons_hd c (splitlines (String c' t))).
    destruct (is_linebreak c).
    + split; [now exists (String c (String c' t))|].
      intros l Hl. destruct (Ascii.eqb c CR && Ascii.eqb c' LF).
      * now apply Substring_cons, Substring_cons, (All t).
      * now apply Substring_cons, (All (String c' t)).
    + destruct (splitlines (String c' t)) as [|l0 ls]; simpl.
      * split; [now exists (String c' t)|intros l []].
      * destruct IHc as [[post Hp] Hs]. split.
        -- exists post. now rewrite Hp.
        -- intros l Hl. now apply Substring_cons, Hs.
Qed.

Lemma splitlines_substring (x l : string) :
  In l (splitlines x) -> Substring l x.
Proof.
  intros Hl. pose proof (splitlines_pieces x) as H.
  destruct (splitlines x) as [|l0 ls]; [destruct Hl|].
  destruct H as [[post Hp] Hs]. destruct Hl as [<-|Hl]; [|auto].
  rewrite Hp. apply Substring_prefix.
Qed.

(** No line of the reformatted synopsis holds the name [rush]: line 77
    has replaced every occurrence, and the replacement forms no new one. *)
Theorem usage_lines_no_rush (usage l : string) :
  In l (usage_lines usage) -> contains "rush" l = false.
Proof.
  unfold usage_lines. intros Hl. apply splitlines_substring in Hl.
  apply contains_false. intros Hs.
  pose proof (Substring_trans _ _ _ Hs Hl) as H.
  apply contains_spec in H. now rewrite replace_no_rush in H.
Qed.

Lemma usage_lines_no_rush_witness :
  contains "rush" "rh crh [--a]" = false.
Proof.
  apply (usage_lines_no_rush "  rush crush [--a] [--brush]" "rh crh [--a]").
  vm_compute. now left.
Defined.

(** ** The flags of the synopsis *)

Lemma take_while_prefix (p : ascii -> bool) (r : string) :
  exists post, r = take_while p r ++ post.
Proof.
  induction r as [|c t [post IH]]; [now exists ""|].
  simpl. destruct (p c); [|now exists (String c t)].
  exists post. simpl. now rewrite <- IH.
Qed.

Lemma take_while_all (p : ascii -> bool) (r : string) :
  all_chars p (take_while p r) = true.
Proof.
  induction r as [|c t IH]; [reflexivity|].
  simpl. destruct (p c) eqn:E; [|reflexivity]. simpl. now rewrite E.
Qed.

Lemma match_flag_some (s m : string) :
  match_flag s = Some m ->
  exists r, s = "--" ++ r /\
            take_while flag_char r <> "" /\
            m = "--" ++ take_while flag_char r.
Proof.
  intros H. destruct s as [|a [|b r]].
  - discriminate.
  - destruct a as [[] [] [] [] [] [] [] []]; discriminate.
  - destruct a as [[] [] [] [] [] [] [] []]; try discriminate.
    destruct b as [[] [] [] [] [] [] [] []]; try discriminate.
    exists r. split; [reflexivity|]. simpl in H.
    destruct (take_while flag_char r) as [|c m']; [discriminate|].
    injection H as <-. split; [discriminate|reflexivity].
Qed.

Lemma findall_from_cons (k : nat) (c : ascii) (t : string) :
  findall_from k (String c t) =
  match k with
  | S k' => findall_from k' t
  | O => match match_flag (String c t) with
         | Some m => m :: findall_from (length m - 1) t
         | None => findall_from 0 t
         end
  end.
Proof. reflexivity. Qed.

Lemma findall_from_flag (k : nat) (s f : string) :
  In f (findall_from k s) ->
  Substring f s /\
  exists word, f = "--" ++ word /\ word <> "" /\
               all_chars flag_char word = true.
Proof.
  revert k. induction s as [|c t IH]; intros k H; [destruct H|].
  rewrite findall_from_cons in H. destruct k as [|k].
  - destruct (match_flag (String c t)) as [m|] eqn:E.
    + destruct H as [<-|H].
      * destruct (match_flag_some _ _ E) as (r & Hs & Hne & ->).
        split.
        -- rewrite Hs. destruct (take_while_prefix flag_char r) as [post Hp].
           exists "", post. simpl. now rewrite <- Hp.
        -- exists (take_while flag_char r). repeat split; auto.
           apply take_while_all.
      * destruct (IH _ H) as [Hsub Hw]. split; [|exact Hw].
        now apply Substring_cons.
    + destruct (IH _ H) as [Hsub Hw]. split; [|exact Hw].
      now apply Substring_cons.
  - destruct (IH _ H) as [Hsub Hw]. split; [|exact Hw].
    now apply Substring_cons.
Qed.

(** Every flag that line 67 finds occurs in the synopsis line and is two
    dashes followed by at least one word character, dash or underscore. *)
Theorem flags_occur_in_synopsis (usage flag : string) :
  In flag (findall_flags usage) ->
  Substring flag usage /\
  exists word, flag = "--" ++ word /\ word <> "" /\
               all_chars flag_char word = true.
Proof. apply findall_from_flag. Qed.

Lemma flags_occur_in_synopsis_witness :
  Substring "--a" "    app [--a] [--b]".
Proof.
  apply (flags_occur_in_synopsis "    app [--a] [--b]" "--a").
  vm_compute. now left.
Defined.

(** ** What the splice replaces *)

Lemma readme_lines_unlines (ls : list string) :
  (forall l, In l ls -> tidy l) -> readme_lines (unlines ls) = ls.
Proof.
  intros H. unfold readme_lines.
  rewrite readlines_unlines by (intros l Hl; now apply H).
  rewrite map_map. rewrite <- (map_id ls) at 2. apply map_ext_in.
  intros l Hl. rewrite rstrip_eol. now apply H.
Qed.

(** The splice of a document that is read as the lines [P], whose last
    is their first usage header, lines [mid] without header, and lines
    [S] that open with a header. *)
Lemma splice_lines (help content : string) (P mid S : list string) (b : nat) :
  find_first is_usage_header P = Some b ->
  List.length P = b + 1 ->
  find_first is_header S = Some 0 ->
  (forall m, In m mid -> is_header m = false) ->
  readme_lines content = (P ++ mid ++ S)%list ->
  bin_readme help content = (None, unlines (P ++ [""; help; ""] ++ S)%list).
Proof.
  intros HP HlP HS Hmid Hrl. unfold bin_readme. rewrite Hrl.
  assert (skipn (b + 1) (P ++ mid ++ S)%list = (mid ++ S)%list) as Hskip.
  { rewrite skipn_app, <- HlP, skipn_all, Nat.sub_diag. reflexivity. }
  assert (find_markers 0 None (P ++ mid ++ S)%list =
          (Some b, Some (b + 1 + List.length mid))) as ->.
  { rewrite find_markers_none, (find_first_app_l _ _ _ _ HP).
    cbn [Nat.add]. rewrite Hskip, (find_first_app_r _ _ _ Hmid), HS.
    cbn [option_map]. now rewrite Nat.add_0_r. }
  f_equal.
  assert (firstn (b + 1) (P ++ mid ++ S)%list = P) as ->.
  { rewrite firstn_app, <- HlP, firstn_all, Nat.sub_diag, firstn_O.
    apply app_nil_r. }
  assert (skipn (b + 1 + List.length mid) (P ++ mid ++ S)%list = S) as ->.
  { rewrite (Nat.add_comm (b + 1)), <- skipn_skipn, Hskip.
    rewrite skipn_app, skipn_all, Nat.sub_diag. reflexivity. }
  apply readme_content_eq.
  - destruct P; [simpl in HlP; lia|discriminate].
  - destruct S; discriminate.
Qed.

(** Whatever lines stand between the usage header and the next header
    are replaced.  Let a README be read (line ends normalised, lines
    right-trimmed: [readme_lines]) as lines [P], closed by their first
    usage header, any lines [body] without header, and lines [S] that
    open with a header.  Then the splice writes [P], an empty line, the
    block, an empty line and [S]: nothing of [body] is left, and the
    result does not depend on it (lines 85-110). *)
Theorem bin_readme_replaces_body (help content : string)
        (P body S : list string) (b : nat) :
  readme_lines content = (P ++ body ++ S)%list ->
  find_first is_usage_header P = Some b ->
  List.length P = b + 1 ->
  find_first is_header S = Some 0 ->
  (forall l, In l body -> is_header l = false) ->
  bin_readme help content = (None, unlines (P ++ [""; help; ""] ++ S)%list) /\
  (forall content' body',
      readme_lines content' = (P ++ body' ++ S)%list ->
      (forall l, In l body' -> is_header l = false) ->
      bin_readme help content' = bin_readme help content).
Proof.
  intros Hrl HP HlP HS Hb.
  pose proof (splice_lines help content P body S b HP HlP HS Hb Hrl) as E.
  split; [exact E|].
  intros content' body' Hrl' Hb'.
  now rewrite E, (splice_lines help content' P body' S b HP HlP HS Hb' Hrl').
Qed.

Lemma bin_readme_replaces_body_witness :
  bin_readme "    rh"
    ("# rush  " ++ String CR nl ++ "## Usage" ++ nl ++ "old" ++ nl ++
     "  older   " ++ nl ++ "## More")
  = (None, unlines (["# rush"; "## Usage"] ++ [""; "    rh"; ""] ++
                    ["## More"])%list).
Proof.
  apply (bin_readme_replaces_body "    rh"
           ("# rush  " ++ String CR nl ++ "## Usage" ++ nl ++ "old" ++ nl ++
            "  older   " ++ nl ++ "## More")
           ["# rush"; "## Usage"] ["old"; "  older"] ["## More"] 1);
    try reflexivity.
  intros l [<-|[<-|[]]]; reflexivity.
Defined.

(** Splicing one block over another: after a splice of a normalised
    block, the splice of any block gives what it gives on the document
    as it was before; the block written last is the one that stays. *)
Theorem bin_readme_last_wins (stdout help1 help2 content new1 : string) :
  bin_help stdout = Ok help1 ->
  bin_readme help1 content = (None, new1) ->
  bin_readme help2 new1 = bin_readme help2 content.
Proof.
  intros Hh Hr.
  destruct (bin_help_block _ _ Hh) as (ls & -> & Hls).
  assert (exists b e, find_markers 0 None (readme_lines content)
                      = (Some b, Some e)) as (b & e & F).
  { unfold bin_readme in Hr.
    destruct (find_markers 0 None (readme_lines content)) as [[b|] [e|]];
      try discriminate. now exists b, e. }
  destruct (markers_in_range _ _ _ F) as [Hbe He].
  destruct (find_markers_found _ _ _ F) as (Hb & j & -> & Hj).
  assert (forall help,
            bin_readme help content =
            (None, unlines (firstn (b + 1) (readme_lines content) ++
                            [""; help; ""] ++
                            skipn (b + 1 + j) (readme_lines content))%list))
    as Hsplice.
  { intros help. unfold bin_readme. rewrite F. f_equal.
    apply readme_content_eq;
      first [apply firstn_nonempty; lia | now apply skipn_nonempty]. }
  rewrite Hsplice in Hr. injection Hr as <-. rewrite Hsplice.
  apply (splice_lines help2 _ _
           (readme_lines (unlines [""; join nl (map indent ls); ""])) _ b).
  - now apply find_first_firstn.
  - rewrite length_firstn. lia.
  - rewrite (Nat.add_comm (b + 1)), <- skipn_skipn.
    now apply find_first_skipn.
  - intros m. now apply block_no_header.
  - apply readme_lines_frame; intros l Hl;
      apply (readme_lines_tidy content).
    + now apply (in_firstn (b + 1)).
    + now apply (in_skipn (b + 1 + j)).
Qed.

Lemma bin_readme_last_wins_witness :
  bin_readme "    other"
    (unlines ["## Usage"; ""; "    rh"; ""; "## More"]) =
  bin_readme "    other" trailing_readme.
Proof.
  apply (bin_readme_last_wins usage_stdout "    rh" "    other"
           trailing_readme); reflexivity.
Defined.

Lemma unlines_ends (ls : list string) :
  ls <> [] -> exists body, unlines ls = body ++ nl.
Proof.
  intros H. destruct (exists_last H) as (init & l & ->).
  exists (unlines init ++ l).
  rewrite unlines_app, unlines_cons. unfold eol, unlines. simpl.
  now rewrite !append_assoc, append_nil_r.
Qed.

(** A README that the splice has rewritten ends with the line separator
    (the last, empty, string of line 109). *)
Theorem bin_readme_final_newline (help content new : string) :
  bin_readme help content = (None, new) ->
  exists body, new = body ++ linesep.
Proof.
  unfold bin_readme. intros H.
  destruct (find_markers 0 None (readme_lines content)) as [[b|] [e|]] eqn:F;
    try discriminate.
  destruct (markers_in_range _ _ _ F) as [Hbe He].
  rewrite readme_content_eq in H
    by (first [apply firstn_nonempty; lia | now apply skipn_nonempty]).
  injection H as <-. apply unlines_ends.
  destruct (firstn (b + 1) (readme_lines content)); discriminate.
Qed.

Lemma bin_readme_final_newline_witness :
  exists body,
    unlines ["## Usage"; ""; "    rh"; ""; "## More"] = body ++ linesep.
Proof.
  apply (bin_readme_final_newline "    rh"
           ("## Usage" ++ nl ++ "old" ++ nl ++ "## More")).
  reflexivity.
Defined.

(** ** Line ends of the README *)

Lemma crlf_lines_cons (l : string) (ls : list string) :
  crlf_lines (l :: ls) = l ++ String CR (String LF (crlf_lines ls)).
Proof. reflexivity. Qed.

Lemma universal_newlines_crlf (ls : list string) :
  (forall l, In l ls -> no_eol l = true) ->
  universal_newlines (crlf_lines ls) = unlines ls.
Proof.
  induction ls as [|l ls IH]; intros H; [reflexivity|].
  rewrite crlf_lines_cons, unlines_cons.
  rewrite universal_newlines_no_cr_in
    by (apply no_eol_cr, H; now left).
  assert (universal_newlines (String CR (String LF (crlf_lines ls)))
          = String LF (universal_newlines (crlf_lines ls))) as ->
      by (now rewrite universal_newlines_cons2).
  rewrite IH by (intros x Hx; apply H; now right).
  unfold eol. now rewrite append_assoc.
Qed.

Lemma readme_lines_crlf (ls : list string) :
  (forall l, In l ls -> no_eol l = true) ->
  readme_lines (crlf_lines ls) = readme_lines (unlines ls).
Proof.
  intros H. unfold readme_lines, readlines.
  rewrite (universal_newlines_crlf _ H).
  rewrite (universal_newlines_fixed (unlines ls)); [reflexivity|].
  apply unlines_no_cr. intros l Hl. now apply no_eol_cr, H.
Qed.

(** The line ends of the README do not matter to the splice: a document
    whose lines are closed by carriage return and line feed is spliced
    like the same lines closed by a line feed, and comes out with line
    feeds only; where the markers are missing both are refused alike. *)
Theorem bin_readme_crlf (help : string) (ls : list string) :
  (forall l, In l ls -> no_eol l = true) ->
  fst (bin_readme help (crlf_lines ls)) = fst (bin_readme help (unlines ls)) /\
  (fst (bin_readme help (unlines ls)) = None ->
   bin_readme help (crlf_lines ls) = bin_readme help (unlines ls)).
Proof.
  intros H. unfold bin_readme. rewrite (readme_lines_crlf _ H).
  destruct (find_markers 0 None (readme_lines (unlines ls)))
    as [[b|] [e|]]; simpl; split; try reflexivity; discriminate.
Qed.

Lemma bin_readme_crlf_witness :
  bin_readme "    rh" (crlf_lines ["## Usage"; "old"; "## More"]) =
  bin_readme "    rh" (unlines ["## Usage"; "old"; "## More"]).
Proof.
  apply (bin_readme_crlf "    rh" ["## Usage"; "old"; "## More"]).
  - intros l [<-|[<-|[<-|[]]]]; reflexivity.
  - reflexivity.
Defined.

(** ** The patterns read from the pattern file *)

Lemma rstrip_nil_iff (s : string) :
  rstrip s = "" <-> all_chars isspace s = true.
Proof.
  induction s as [|c t IH]; simpl; [tauto|].
  destruct (rstrip t) as [|c' r].
  - destruct (isspace c); simpl.
    + now rewrite <- IH.
    + split; discriminate.
  - split; [discriminate|]. intros H. apply andb_true_iff in H as [_ H].
    apply IH in H. discriminate.
Qed.

Lemma lstrip_nil_iff (s : string) :
  lstrip s = "" <-> all_chars isspace s = true.
Proof.
  induction s as [|c t IH]; simpl; [tauto|].
  destruct (isspace c); simpl; [exact IH|]. split; discriminate.
Qed.

Lemma lstrip_rstrip (s : string) : lstrip (rstrip s) = rstrip (lstrip s).
Proof.
  induction s as [|c t IH]; [reflexivity|].
  simpl lstrip at 2. destruct (isspace c) eqn:E.
  - rewrite <- IH. simpl rstrip. destruct (rstrip t) as [|c' r].
    + now rewrite E.
    + simpl. now rewrite E.
  - destruct (rstrip_head c t E) as [r Hr]. rewrite Hr. simpl. now rewrite E.
Qed.

Lemma lstrip_app (s x : string) :
  lstrip s <> "" -> lstrip (s ++ x) = lstrip s ++ x.
Proof.
  induction s as [|c t IH]; [now intros H|].
  simpl. destruct (isspace c); [exact IH|reflexivity].
Qed.

Lemma startswith_hash_app (s x : string) :
  s <> "" -> startswith "#" (s ++ x) = startswith "#" s.
Proof.
  unfold startswith. destruct s as [|c t]; [now intros H|].
  intros _. change (String c t ++ x) with (String c (t ++ x)).
  now rewrite !prefix_cons, !prefix_nil.
Qed.

Lemma tidy_lstrip (l : string) :
  rstrip l = l -> l <> "" -> lstrip l <> "" /\ rstrip (lstrip l) = lstrip l.
Proof.
  intros Hr Hne. split.
  - intros H. apply lstrip_nil_iff, rstrip_nil_iff in H. congruence.
  - now rewrite <- lstrip_rstrip, Hr.
Qed.

Lemma docs_ignored_in_readme_lines (content p : string) :
  In p (docs_ignored content) -> In p (readme_lines content).
Proof.
  unfold docs_ignored, readme_lines. rewrite !in_map_iff.
  intros (line & <- & H). apply filter_In in H as [H _]. now exists line.
Qed.

Lemma ignored_clean (content p : string) :
  In p (docs_ignored content) ->
  p <> "" /\ rstrip p = p /\ no_eol p = true /\
  startswith "#" (lstrip p) = false.
Proof.
  intros H.
  destruct (readme_lines_tidy _ _ (docs_ignored_in_readme_lines _ _ H))
    as [Heol Hr].
  unfold docs_ignored in H. apply in_map_iff in H as (line & <- & H).
  apply filter_In in H as [_ H]. apply ignored_line_spec in H as [Hs Hh].
  unfold strip in Hs, Hh. repeat split; auto.
  - intros E. apply rstrip_nil_iff, lstrip_nil_iff in E.
    rewrite E in Hs. now apply Hs.
  - now rewrite lstrip_rstrip.
Qed.

Lemma ignored_line_eol (l : string) :
  rstrip l = l -> l <> "" -> startswith "#" (lstrip l) = false ->
  ignored_line (eol l) = true.
Proof.
  intros Hr Hne Hh. destruct (tidy_lstrip l Hr Hne) as [Hl Hlr].
  apply ignored_line_spec. unfold strip, eol.
  rewrite (lstrip_app _ _ Hl).
  change (lstrip l ++ nl) with (eol (lstrip l)).
  rewrite rstrip_eol, Hlr. split; [exact Hl|].
  now rewrite <- Hlr, startswith_hash_rstrip.
Qed.

Lemma filter_all {A : Type} (f : A -> bool) (ls : list A) :
  (forall x, In x ls -> f x = true) -> filter f ls = ls.
Proof.
  induction ls as [|x ls IH]; intros H; [reflexivity|].
  simpl. rewrite (H x (or_introl eq_refl)), IH; [reflexivity|].
  intros y Hy. apply H. now right.
Qed.

Lemma ignored_round_trip (ls : list string) :
  (forall l, In l ls ->
             l <> "" /\ rstrip l = l /\ no_eol l = true /\
             startswith "#" (lstrip l) = false) ->
  docs_ignored (unlines ls) = ls.
Proof.
  intros H. unfold docs_ignored.
  rewrite readlines_unlines by (intros l Hl; now apply H).
  rewrite filter_all.
  - rewrite map_map. rewrite <- (map_id ls) at 2. apply map_ext_in.
    intros l Hl. rewrite rstrip_eol. now apply H.
  - intros x Hx. apply in_map_iff in Hx as (l & <- & Hl).
    destruct (H l Hl) as (Hne & Hr & _ & Hh). now apply ignored_line_eol.
Qed.

(** Every pattern handed to the glob is clean: it is not empty, has no
    trailing whitespace and no line end, and is no comment (lines
    175-177).  Its leading whitespace, if any, is still there. *)
Theorem docs_ignored_patterns_clean (content p : string) :
  In p (docs_ignored content) ->
  p <> "" /\ rstrip p = p /\ no_eol p = true /\
  startswith "#" (lstrip p) = false /\
  exists line, In line (readlines content) /\ p = rstrip line.
Proof.
  intros H. destruct (ignored_clean _ _ H) as (H1 & H2 & H3 & H4).
  repeat split; auto.
  unfold docs_ignored in H. apply in_map_iff in H as (line & <- & H).
  apply filter_In in H as [H _]. now exists line.
Qed.

Lemma docs_ignored_patterns_clean_witness :
  rstrip "  *.log" = "  *.log".
Proof.
  apply (docs_ignored_patterns_clean
           (unlines ["# comment"; "  *.log  "; "   "]) "  *.log").
  vm_compute. now left.
Defined.

(** A file of clean patterns, one on a line, is read back as these very
    patterns, in their order, a [#] inside a pattern and whitespace
    before it included. *)
Theorem docs_ignored_reads_patterns (ls : list string) :
  (forall l, In l ls ->
             l <> "" /\ rstrip l = l /\ no_eol l = true /\
             startswith "#" (lstrip l) = false) ->
  docs_ignored (unlines ls) = ls.
Proof. apply ignored_round_trip. Qed.

Lemma docs_ignored_reads_patterns_witness :
  docs_ignored (unlines ["*.tmp"; "  build/"; "a#b"]) =
  ["*.tmp"; "  build/"; "a#b"].
Proof.
  apply (docs_ignored_reads_patterns ["*.tmp"; "  build/"; "a#b"]).
  intros l [<-|[<-|[<-|[]]]]; repeat split; try reflexivity; discriminate.
Defined.

(** Reading is idempotent: the patterns read from a file, written one
    on a line, are read as the same patterns; only comments, blank lines
    and trailing whitespace are ever removed. *)
Theorem docs_ignored_idempotent (content : string) :
  docs_ignored (unlines (docs_ignored content)) = docs_ignored content.
Proof. apply ignored_round_trip. intros l. apply ignored_clean. Qed.

(** ** The compiler check *)

Lemma split_ws_blank (n : nat) (s : string) :
  lstrip s = "" -> PyExt.split_ws n s = [].
Proof. intros H. destruct n; simpl; now rewrite H. Qed.

Lemma split_ws_last (s : string) :
  lstrip s <> "" -> PyExt.split_ws 0 s = [lstrip s].
Proof. simpl. destruct (lstrip s); [now intros H|reflexivity]. Qed.

Lemma split_ws_step (n : nat) (s : string) :
  lstrip s <> "" ->
  PyExt.split_ws (S n) s =
  take_while PyExt.nonspace (lstrip s)
  :: PyExt.split_ws n (PyExt.drop_while PyExt.nonspace (lstrip s)).
Proof. simpl. destruct (lstrip s); [now intros H|reflexivity]. Qed.

Lemma lstrip_blank_app (sp x : string) :
  is_blank sp = true -> lstrip (sp ++ x) = lstrip x.
Proof.
  unfold is_blank. induction sp as [|c t IH]; [reflexivity|].
  simpl. intros H. apply andb_true_iff in H as [Hc Ht].
  rewrite Hc. now apply IH.
Qed.

Lemma lstrip_word_app (w x : string) :
  is_word_run w = true -> lstrip (w ++ x) = w ++ x.
Proof.
  unfold is_word_run. destruct w as [|c t]; [discriminate|].
  simpl. intros H. apply andb_true_iff in H as [Hc _].
  unfold PyExt.nonspace in Hc. apply negb_true_iff in Hc. now rewrite Hc.
Qed.

Lemma word_app_nonempty (w x : string) :
  is_word_run w = true -> w ++ x <> "".
Proof. destruct w; [discriminate|discriminate]. Qed.

Lemma take_while_app (p : ascii -> bool) (w x : string) :
  all_chars p w = true ->
  take_while p (w ++ x) = w ++ take_while p x.
Proof.
  induction w as [|c t IH]; [reflexivity|].
  simpl. intros H. apply andb_true_iff in H as [Hc Ht].
  now rewrite Hc, IH.
Qed.

Lemma drop_while_app (p : ascii -> bool) (w x : string) :
  all_chars p w = true ->
  PyExt.drop_while p (w ++ x) = PyExt.drop_while p x.
Proof.
  induction w as [|c t IH]; [reflexivity|].
  simpl. intros H. apply andb_true_iff in H as [Hc Ht].
  now rewrite Hc, IH.
Qed.

Lemma blank_stops (sp x : string) :
  is_blank sp = true -> sp <> "" ->
  take_while PyExt.nonspace (sp ++ x) = "" /\
  PyExt.drop_while PyExt.nonspace (sp ++ x) = sp ++ x.
Proof.
  unfold is_blank. destruct sp as [|c t]; [now intros _ H|].
  simpl. intros H _. apply andb_true_iff in H as [Hc _].
  unfold PyExt.nonspace. now rewrite Hc.
Qed.

(** A word followed by whitespace is the first element of the split. *)
Lemma split_ws_word (n : nat) (sp0 w sp x : string) :
  is_blank sp0 = true -> is_word_run w = true ->
  is_blank sp = true -> sp <> "" ->
  PyExt.split_ws (S n) (sp0 ++ w ++ sp ++ x) = w :: PyExt.split_ws n (sp ++ x).
Proof.
  intros H0 Hw Hs Hne.
  assert (lstrip (sp0 ++ w ++ sp ++ x) = w ++ sp ++ x) as E
      by (now rewrite lstrip_blank_app, lstrip_word_app).
  rewrite split_ws_step; rewrite E; [|now apply word_app_nonempty].
  unfold is_word_run in Hw. apply andb_true_iff in Hw as [_ Hw].
  destruct (blank_stops sp x Hs Hne) as [Ht Hd].
  now rewrite take_while_app, drop_while_app, Ht, Hd, append_nil_r.
Qed.

(** [rustc --version] that prints two words only: the unpacking of line
    206 fails with [ValueError], whatever the version is, and the
    version is never compared. *)
Theorem ensure_rustc_version_two_words
        (semver_match : string -> string -> option bool)
        (rustc_v : Tasks.Result) (sp0 w1 sp1 w2 sp2 : string) :
  Tasks.ok rustc_v = true ->
  Tasks.stdout rustc_v = sp0 ++ w1 ++ sp1 ++ w2 ++ sp2 ->
  is_blank sp0 = true -> is_word_run w1 = true ->
  is_blank sp1 = true -> sp1 <> "" -> is_word_run w2 = true ->
  is_blank sp2 = true ->
  Tasks.ensure_rustc_version semver_match rustc_v = Tasks.Aborts Tasks.ValueError.
Proof.
  intros Hok Hout H0 Hw1 H1 Hne1 Hw2 H2.
  unfold Tasks.ensure_rustc_version. rewrite Hok, Hout. simpl negb. cbv iota.
  rewrite split_ws_word by assumption.
  assert (PyExt.split_ws 1 (sp1 ++ w2 ++ sp2) = [w2]) as ->.
  { destruct (string_dec sp2 "") as [->|Hne2].
    - assert (lstrip (sp1 ++ w2 ++ "") = w2 ++ "") as E
          by (now rewrite lstrip_blank_app, lstrip_word_app).
      rewrite split_ws_step; rewrite E; [|now apply word_app_nonempty].
      unfold is_word_run in Hw2. apply andb_true_iff in Hw2 as [_ Hw2].
      rewrite take_while_app, drop_while_app by exact Hw2.
      simpl. now rewrite append_nil_r.
    - rewrite <- (append_nil_r sp2).
      rewrite split_ws_word by assumption.
      rewrite split_ws_blank; [reflexivity|].
      rewrite lstrip_blank_app by exact H2. reflexivity. }
  reflexivity.
Qed.

Lemma ensure_rustc_version_two_words_witness :
  Tasks.ensure_rustc_version exact_match (succeeded ("rustc 1.10.0" ++ nl))
  = Tasks.Aborts Tasks.ValueError.
Proof.
  apply (ensure_rustc_version_two_words exact_match
           (succeeded ("rustc 1.10.0" ++ nl)) "" "rustc" " " "1.10.0" nl);
    try reflexivity.
  discriminate.
Defined.

(** [rustc --version] that prints a name, a version and more: the
    second word alone decides.  The check returns [True] when the
    version meets the minimum, leaves with exit code 1 when it does not,
    and whatever follows the version plays no part. *)
Theorem ensure_rustc_version_second_word
        (semver_match : string -> string -> option bool)
        (rustc_v : Tasks.Result) (sp0 w1 sp1 w2 sp2 more : string) :
  Tasks.ok rustc_v = true ->
  Tasks.stdout rustc_v = sp0 ++ w1 ++ sp1 ++ w2 ++ sp2 ++ more ->
  is_blank sp0 = true -> is_word_run w1 = true ->
  is_blank sp1 = true -> sp1 <> "" -> is_word_run w2 = true ->
  is_blank sp2 = true -> sp2 <> "" -> lstrip more <> "" ->
  Tasks.ensure_rustc_version semver_match rustc_v =
  match semver_match w2 ">=1.10.0" with
  | Some true => Tasks.Returns true
  | Some false => Tasks.Aborts (Tasks.SystemExit 1%Z)
  | None => Tasks.Aborts Tasks.ValueError
  end.
Proof.
  intros Hok Hout H0 Hw1 H1 Hne1 Hw2 H2 Hne2 Hm.
  unfold Tasks.ensure_rustc_version. rewrite Hok, Hout. simpl negb. cbv iota.
  rewrite split_ws_word by assumption.
  rewrite split_ws_word by assumption.
  rewrite split_ws_last by (now rewrite lstrip_blank_app).
  change (">=" ++ Tasks.MIN_RUSTC_VERSION) with ">=1.10.0".
  destruct (semver_match w2 ">=1.10.0") as [[]|]; reflexivity.
Qed.

Lemma ensure_rustc_version_second_word_witness :
  Tasks.ensure_rustc_version exact_match
    (succeeded ("rustc 1.10.0 (cfcb716cf 2016-07-03)" ++ nl))
  = Tasks.Returns true.
Proof.
  apply (ensure_rustc_version_second_word exact_match
           (succeeded ("rustc 1.10.0 (cfcb716cf 2016-07-03)" ++ nl))
           "" "rustc" " " "1.10.0" " " ("(cfcb716cf 2016-07-03)" ++ nl));
    try reflexivity; discriminate.
Defined.

(** ** [bin] as a whole *)

(** Whenever [bin] returns, the compiler check has passed, and either it
    returns [None], after the build and the binary succeeded, the help
    text was normalised, both markers were found and the README was
    written; or the README is as it was and the value is the return code
    of the build that failed, of the binary that failed, or 2. *)
Theorem bin_task_outcome
        (semver_match : string -> string -> option bool)
        (rustc_v cargo_build binary : Tasks.Result)
        (readme : option string) (write_ok : bool)
        (r : option Z) (readme' : option string) :
  Tasks.bin_task semver_match rustc_v cargo_build binary readme write_ok
    = Tasks.Returns (r, readme') ->
  Tasks.ensure_rustc_version semver_match rustc_v = Tasks.Returns true /\
  ((r = None /\
    Tasks.ok cargo_build = true /\ Tasks.ok binary = true /\
    write_ok = true /\
    exists help content new,
      bin_help (Tasks.stdout binary) = Ok help /\
      readme = Some content /\
      bin_readme help content = (None, new) /\
      readme' = Some new)
   \/
   (readme' = readme /\
    ((Tasks.ok cargo_build = false /\
      r = Some (Tasks.return_code cargo_build)) \/
     (Tasks.ok cargo_build = true /\ Tasks.ok binary = false /\
      r = Some (Tasks.return_code binary)) \/
     (Tasks.ok cargo_build = true /\ Tasks.ok binary = true /\
      r = Some 2%Z)))).
Proof.
  unfold Tasks.bin_task.
  assert (forall b, Tasks.ensure_rustc_version semver_match rustc_v
                    = Tasks.Returns b -> b = true) as Htrue.
  { unfold Tasks.ensure_rustc_version. intros b.
    destruct (negb (Tasks.ok rustc_v)); [discriminate|].
    destruct (PyExt.split_ws 2 (Tasks.stdout rustc_v))
      as [|x1 [|x2 [|x3 [|x4 l]]]]; try discriminate.
    destruct (semver_match x2 _) as [[]|]; try discriminate.
    now intros [= <-]. }
  destruct (Tasks.ensure_rustc_version semver_match rustc_v) as [b|s] eqn:E;
    [|discriminate].
  rewrite (Htrue b eq_refl).
  destruct (Tasks.ok cargo_build) eqn:Hb; simpl.
  2:{ intros [= <- <-]. split; [reflexivity|]. right.
      split; [reflexivity|]. now left. }
  destruct (Tasks.ok binary) eqn:Hr; simpl.
  2:{ intros [= <- <-]. split; [reflexivity|]. right.
      split; [reflexivity|]. right. now left. }
  destruct (bin_help (Tasks.stdout binary)) as [help|e] eqn:Hh;
    [|discriminate].
  destruct readme as [content|]; [|discriminate].
  destruct (bin_readme help content) as [[code|] new] eqn:Hs.
  - intros [= <- <-]. split; [reflexivity|]. right.
    split; [reflexivity|]. right. right.
    assert (code = 2%Z) as ->; [|auto].
    unfold bin_readme in Hs.
    destruct (find_markers 0 None (readme_lines content)) as [[b0|] [e0|]];
      try discriminate; injection Hs as Hc _; now symmetry.
  - destruct write_ok; [|discriminate].
    intros [= <- <-]. split; [reflexivity|]. left.
    repeat split; auto. now exists help, content, new.
Qed.

Lemma bin_task_outcome_witness :
  Tasks.ensure_rustc_version exact_match
    (succeeded ("rustc 1.10.0 (cfcb716cf 2016-07-03)" ++ nl))
  = Tasks.Returns true.
Proof.
  apply (bin_task_outcome exact_match
           (succeeded ("rustc 1.10.0 (cfcb716cf 2016-07-03)" ++ nl))
           (succeeded "") (succeeded usage_stdout)
           (Some trailing_readme) true
           None (Some (unlines ["## Usage"; ""; "    rh"; ""; "## More"]))).
  reflexivity.
Defined.

(** ** The flags handed to the tools *)

(** [get_rustc_flags] gives [--release] exactly when [release] is set and
    [--verbose] exactly when [verbose] is, each once, [--release] first,
    and nothing else. *)
Theorem get_rustc_flags_spec (release verbose : bool) :
  let flags := Tasks.get_rustc_flags release verbose in
  (In "--release" flags <-> release = true) /\
  (In "--verbose" flags <-> verbose = true) /\
  (forall f, In f flags -> f = "--release" \/ f = "--verbose") /\
  NoDup flags /\
  flags = ((if release then ["--release"] else []) ++
           (if verbose then ["--verbose"] else []))%list.
Proof.
  assert (forall a b : string, a <> b -> NoDup [a; b]) as N2.
  { intros a b Hab. constructor; [intros [H|[]]; now apply Hab|].
    constructor; [intros []|constructor]. }
  assert (forall a : string, NoDup [a]) as N1.
  { intros a. constructor; [intros []|constructor]. }
  destruct release, verbose; cbn;
    (split; [|split; [|split; [|split; [|reflexivity]]]]);
    try (intuition (discriminate || congruence));
    first [apply N2; discriminate | apply N1 | constructor].
Qed.

(** The command of [docs_]: [--strict] is always passed, [--clean]
    exactly for a release build and [--verbose] exactly for a verbose
    one, and quoting leaves every argument as it is. *)
Theorem mkdocs_command_spec (release verbose : bool) :
  map PyExt.quote (Tasks.mkdocs_args release verbose)
    = Tasks.mkdocs_args release verbose /\
  Tasks.mkdocs_command release verbose =
    "mkdocs build --strict" ++ (if release then " --clean" else "")
    ++ (if verbose then " --verbose" else "") /\
  (In "--clean" (Tasks.mkdocs_args release verbose) <-> release = true) /\
  (In "--verbose" (Tasks.mkdocs_args release verbose) <-> verbose = true).
Proof.
  destruct release, verbose; repeat split; try reflexivity;
    simpl; intuition discriminate.
Qed.

(** ** Whitespace around the help text *)

Lemma rstrip_app_blank (s sp : string) :
  is_blank sp = true -> rstrip (s ++ sp) = rstrip s.
Proof.
  unfold is_blank. revert s. induction sp as [|c t IH]; intros s H.
  - now rewrite append_nil_r.
  - simpl in H. apply andb_true_iff in H as [Hc Ht].
    change (String c t) with (String c "" ++ t).
    rewrite <- append_assoc, (IH _ Ht). now apply rstrip_app_space.
Qed.

Lemma strip_margin (sp1 s sp2 : string) :
  is_blank sp1 = true -> is_blank sp2 = true ->
  strip (sp1 ++ s ++ sp2) = strip s.
Proof.
  intros H1 H2. unfold strip. rewrite (lstrip_blank_app _ _ H1).
  destruct (string_dec (lstrip s) "") as [E|E].
  - rewrite E. apply lstrip_nil_iff in E.
    assert (all_chars isspace (s ++ sp2) = true) as A
        by (rewrite all_chars_app, E; exact H2).
    apply lstrip_nil_iff in A. now rewrite A.
  - rewrite (lstrip_app _ _ E). now apply rstrip_app_blank.
Qed.

(** Whitespace and empty lines before and after the text that the binary
    prints change nothing: the help block, or the error, is the same
    (the [strip] of line 61). *)
Theorem bin_help_ignores_margin (sp1 stdout sp2 : string) :
  is_blank sp1 = true -> is_blank sp2 = true ->
  bin_help (sp1 ++ stdout ++ sp2) = bin_help stdout.
Proof.
  intros H1 H2. unfold bin_help, help_lines.
  now rewrite (strip_margin _ _ _ H1 H2).
Qed.

Lemma bin_help_ignores_margin_witness :
  bin_help ((nl ++ "  ") ++ usage_stdout ++ (nl ++ nl)) = bin_help usage_stdout.
Proof.
  apply (bin_help_ignores_margin (nl ++ "  ") usage_stdout (nl ++ nl));
    reflexivity.
Defined.

(** ** Resolving the patterns *)

Lemma path_eqb_eq (p q : Purge.path) : Purge.path_eqb p q = true <-> p = q.
Proof.
  revert q. induction p as [|x p IH]; intros [|y q]; simpl;
    try (split; [discriminate|discriminate]); [tauto|].
  rewrite andb_true_iff, String.eqb_eq, IH.
  split; [intros [-> ->]; reflexivity|intros [= -> ->]; auto].
Qed.

Lemma path_eqb_refl (p : Purge.path) : Purge.path_eqb p p = true.
Proof. now apply path_eqb_eq. Qed.





















Example purge_site_ex :
  Purge.purge no_beyond site_tree ["*.tmp"; "build/"] =
  Some [(["keep.txt"], false)].
Proof. reflexivity. Qed.

(** ** What the claims as worded leave open *)

(** C7, as stated, fails: the third line of [sample_readme] ends in two
    spaces, and the splice writes it without them. *)
Lemma verbatim_counterexample :
  nth 2 (readlines sample_readme) "" = eol "Intro  " /\
  nth 2 (readlines (snd (bin_readme "    rh" sample_readme))) "" = eol "Intro" /\
  ~ verbatim_claim "    rh" sample_readme.
Proof.
  split; [reflexivity|]. split; [reflexivity|].
  intros H. destruct (H 4 8 eq_refl) as (new & mid & Hn & Hl).
  vm_compute in Hn. injection Hn as <-.
  apply (f_equal (fun l => nth 2 l "")) in Hl.
  vm_compute in Hl. discriminate.
Qed.

(** C10, as stated, fails: no line of [indented_usage_help] as printed
    starts with [USAGE], the first one opening with two spaces, yet the
    text is trimmed as a whole before the lines are looked at and a
    block is returned. *)
Lemma raw_usage_counterexample :
  (forall l, In l (splitlines indented_usage_help) ->
             startswith "USAGE" l = false) /\
  bin_help indented_usage_help =
    Ok (join nl ["    app [--a]"; "        --a  one"]) /\
  ~ raw_usage_claim.
Proof.
  split; [|split; [reflexivity|]].
  - intros l H. vm_compute in H.
    destruct H as [<-|[<-|[<-|[]]]]; reflexivity.
  - intros H. specialize (H indented_usage_help).
    assert (bin_help indented_usage_help = Raise IndexError) as K.
    { apply H. intros l Hl. vm_compute in Hl.
      destruct Hl as [<-|[<-|[<-|[]]]]; reflexivity. }
    discriminate.
Qed.
